(** * COVID-19 vaccination dashboard: the aggregation pipeline

    A shallow embedding of [covid_vax_dashboard.py] (the script that the
    generator [Covid vaccination dashboard.py] writes out and also runs
    inline for its previews): [load_data], the three headline figures, the
    global daily series with its 7-day rolling mean, the entity ranking and
    the per-entity series.

    Conventions of the embedding.
    - A data frame is the list of its rows, in index order; [csv] stands
      for the table [pd.read_csv] returns.  An [Entity] cell is text (no
      missing entity names).
    - A pandas [Timestamp] is the integer count of nanoseconds since the
      epoch; [NaT] is [None].
    - A dose count is an integer; a missing cell ([NaN]) is [None].  Sums of
      integer counts are exact in float64 below 2^53, so sums are taken in
      [Z] and means in [Q], a mean being kept as the fraction
      sum # count; a float [NaN] result is [None].
    - The library calls whose result the script does not fix are taken as
      parameters with their documented contract: the date parser behind
      [pd.to_datetime(..., errors='coerce')] and the default
      ([kind='quicksort']) sort used by [sort_values]. *)

From Stdlib Require Import String Ascii ZArith QArith Qabs Lia Bool List.
From Stdlib Require Import Permutation Sorted OrdersEx RelationClasses.
From Stdlib Require Import DecimalString DecimalZ DecimalPos.
Import ListNotations.

Local Open Scope Z_scope.

(** ** Data model *)

(** One row of the frame; [D] is the type of the [Day] cell, which changes
    along [load_data]: text as read, [option Z] once coerced, [Z] once the
    [NaT] rows are gone. *)
Record Row (D : Type) : Type := mkRow {
  Entity : string;
  Day : D;
  doses_daily : option Z   (* column 'COVID-19 doses (daily)' *)
}.

Arguments mkRow {D} _ _ _.
Arguments Entity {D} _.
Arguments Day {D} _.
Arguments doses_daily {D} _.

Definition DataFrame (D : Type) : Type := list (Row D).

Definition Timestamp : Type := Z.

(** Python exceptions that the modelled lines can raise. *)
Inductive result (A : Type) : Type :=
| Ok (a : A)
| ValueError.

Arguments Ok {A} _.
Arguments ValueError {A}.

Definition bind {A B} (m : result A) (f : A -> result B) : result B :=
  match m with
  | Ok a => f a
  | ValueError => ValueError
  end.

Notation "x <- m ;; k" := (bind m (fun x => k))
  (at level 61, m at next level, right associativity).

(** ** Series reductions *)

(** [Series.sum()] with the default [skipna=True]: a missing cell adds
    nothing, and the sum of no cell is 0. *)
Definition nan0 (v : option Z) : Z :=
  match v with Some z => z | None => 0 end.

Definition nansum (col : list (option Z)) : Z :=
  fold_right (fun v acc => nan0 v + acc) 0 col.

Definition zsum (col : list Z) : Z := fold_right Z.add 0 col.

(** [Series.mean()] of a column without missing cells: [NaN] when empty. *)
Definition mean (col : list Z) : option Q :=
  match col with
  | [] => None
  | _ :: _ => Some (zsum col # Pos.of_nat (length col))
  end.

(** Python's [int(x)] on a float: truncation toward zero; [int(nan)] raises
    [ValueError]. *)
Definition Qtrunc (q : Q) : Z := Z.quot (Qnum q) (Zpos (Qden q)).

Definition int (x : option Q) : result Z :=
  match x with
  | Some q => Ok (Qtrunc q)
  | None => ValueError
  end.

(** ** Group keys *)

(** [groupby] lists its groups in ascending key order (the default
    [sort=True]); the keys here are timestamps and entity names. *)
Class KeyOrder (K : Type) : Type := {
  kcmp : K -> K -> comparison;
  kcmp_spec : forall a b,
      CompareSpec (a = b) (kcmp a b = Lt) (kcmp b a = Lt) (kcmp a b);
  kcmp_trans : forall a b c, kcmp a b = Lt -> kcmp b c = Lt -> kcmp a c = Lt;
  kcmp_irrefl : forall a, kcmp a a <> Lt
}.

Definition klt {K} `{KeyOrder K} (a b : K) : Prop := kcmp a b = Lt.

#[export, refine] Instance Z_KeyOrder : KeyOrder Z := {| kcmp := Z.compare |}.
Proof.
  - intros a b.
    destruct (Z.compare_spec a b); constructor; auto.
  - intros a b c. rewrite !Z.compare_lt_iff. lia.
  - intros a. rewrite Z.compare_refl. discriminate.
Defined.

(** Python compares [str] by code point; on UTF-8 text that is the
    lexicographic order of the bytes. *)
#[export, refine] Instance string_KeyOrder : KeyOrder string :=
  {| kcmp := String_as_OT.compare |}.
Proof.
  - intros a b.
    destruct (String_as_OT.compare_spec a b) as [E|L|G]; constructor; auto.
  - intros a b c. apply (@StrictOrder_Transitive _ _ String_as_OT.lt_strorder).
  - intros a. apply (@StrictOrder_Irreflexive _ _ String_as_OT.lt_strorder).
Defined.

(** ** groupby(key)[value].sum() *)

Section GroupBy.
Context {K : Type} `{KO : KeyOrder K}.

(** One row of the pass [group_sum] makes over the frame: the value is
    added into the slot of its key, and the slots are kept in ascending
    key order. *)
Fixpoint upsert (k : K) (v : Z) (g : list (K * Z)) : list (K * Z) :=
  match g with
  | [] => [(k, v)]
  | (k', v') :: g' =>
      match kcmp k k' with
      | Eq => (k', v' + v) :: g'
      | Lt => (k, v) :: g
      | Gt => (k', v') :: upsert k v g'
      end
  end.

Context {R : Type}.
Variable key : R -> K.
Variable value : R -> option Z.

Definition groupby_sum (rows : list R) : list (K * Z) :=
  fold_left (fun g r => upsert (key r) (nan0 (value r)) g) rows [].

(** Look-up of a group's slot. *)
Fixpoint slot (k : K) (g : list (K * Z)) : option Z :=
  match g with
  | [] => None
  | (k', v') :: g' =>
      match kcmp k k' with
      | Eq => Some v'
      | _ => slot k g'
      end
  end.

Definition key_eqb (a b : K) : bool :=
  match kcmp a b with Eq => true | _ => false end.

(** The cells of one group, in row order. *)
Definition group_cells (k : K) (rows : list R) : list (option Z) :=
  map value (filter (fun r => key_eqb (key r) k) rows).
End GroupBy.

(** ** sort_values *)

(** [DataFrame.sort_values(by, ascending)] is called with its default
    [kind='quicksort'], which numpy documents as not stable.  The sort is
    therefore a parameter bound only by what every sort gives: the rows come
    back permuted, in non-decreasing order of the key. *)
Class Sorter : Type := {
  argsort : forall {A : Type}, (A -> Z) -> list A -> list A;
  argsort_perm : forall (A : Type) (key : A -> Z) (l : list A),
      Permutation l (argsort key l);
  argsort_sorted : forall (A : Type) (key : A -> Z) (l : list A),
      StronglySorted (fun x y => key x <= key y) (argsort key l)
}.

(** Stability is an extra property that a sort may or may not have: rows
    with equal keys keep their relative order. *)
Definition stable (S : Sorter) : Prop :=
  forall (A : Type) (key : A -> Z) (l : list A) (k : Z),
    filter (fun x => key x =? k) (argsort key l)
    = filter (fun x => key x =? k) l.

(** A descending sort is done by pandas' [nargsort] as: reverse the rows,
    sort ascending, reverse the outcome. *)
Definition sort_values `{Sorter} {A : Type} (by_ : A -> Z) (ascending : bool)
    (df : list A) : list A :=
  if ascending then argsort by_ df else rev (argsort by_ (rev df)).

(** Insertion sort, one sort that meets the contract (numpy's quicksort
    falls back on it for short arrays). *)
Fixpoint insert_by {A : Type} (key : A -> Z) (x : A) (l : list A) : list A :=
  match l with
  | [] => [x]
  | y :: l' => if key x <=? key y then x :: l else y :: insert_by key x l'
  end.

Definition insertion_sort {A : Type} (key : A -> Z) (l : list A) : list A :=
  fold_right (insert_by key) [] l.

(** [DataFrame.head(n)]: the first [n] rows; for a negative [n] all rows but
    the last [-n]. *)
Definition head {A : Type} (n : Z) (df : list A) : list A :=
  if 0 <=? n then firstn (Z.to_nat n) df
  else firstn (length df - Z.to_nat (- n)) df.

(** ** rolling(window, min_periods).mean() *)

(** [calc_mean]: the window's mean once it holds [min_periods] observations,
    [NaN] before. *)
Definition calc_mean (minp nobs : nat) (sum_x : Z) : option Q :=
  if (Nat.leb minp nobs && Nat.ltb 0 nobs)%bool
  then Some (sum_x # Pos.of_nat nobs) else None.

(** [roll_mean] for a fixed trailing window: a running sum and count; at
    row [i] the value that left the window (row [i - window], when there is
    one) is removed, then row [i] is added.  [dels] is the column from the
    next row to remove, [adds] from the next row to add. *)
Fixpoint roll_mean (window minp : nat) (i : nat) (dels adds : list Z)
    (sum_x : Z) (nobs : nat) : list (option Q) :=
  match adds with
  | [] => []
  | x :: adds' =>
      let '(dels', sum1, nobs1) :=
        if Nat.leb window i then
          match dels with
          | d :: ds => (ds, sum_x - d, Nat.pred nobs)
          | [] => (dels, sum_x, nobs)
          end
        else (dels, sum_x, nobs) in
      let sum2 := sum1 + x in
      let nobs2 := S nobs1 in
      calc_mean minp nobs2 sum2
        :: roll_mean window minp (S i) dels' adds' sum2 nobs2
  end.

Definition rolling_mean (window minp : nat) (col : list Z) : list (option Q) :=
  roll_mean window minp 0 col col 0 0.

(** ** load_data *)

Section Loader.
(** [pd.to_datetime(column, errors='coerce')]: one timestamp or [NaT] per
    cell.  It is applied to the whole column, since pandas settles the
    date format on the column and not cell by cell. *)
Variable to_datetime : list string -> list (option Timestamp).

(** [df['Day'] = column] *)
Definition assign_Day {D D' : Type} (df : DataFrame D) (col : list D')
  : DataFrame D' :=
  map (fun rd => mkRow (Entity (fst rd)) (snd rd) (doses_daily (fst rd)))
      (combine df col).

(** [df.dropna(subset=['Day'])] *)
Fixpoint dropna_Day (df : DataFrame (option Timestamp))
  : DataFrame Timestamp :=
  match df with
  | [] => []
  | r :: df' =>
      match Day r with
      | Some t => mkRow (Entity r) t (doses_daily r) :: dropna_Day df'
      | None => dropna_Day df'
      end
  end.

(** [csv] is the table [pd.read_csv(path)] returns. *)
Definition load_data (csv : DataFrame string) : DataFrame Timestamp :=
  let df := csv in
  let df := assign_Day df (to_datetime (map Day df)) in
  let df := dropna_Day df in
  df.
End Loader.

(** ** main *)

Definition ns_per_day : Z := 86400 * 1000000000.

(** [Series.max()]: [NaT] on an empty column. *)
Definition Day_max (df : DataFrame Timestamp) : option Timestamp :=
  match df with
  | [] => None
  | r :: df' => Some (fold_left (fun m r' => Z.max m (Day r')) df' (Day r))
  end.

(** [Timestamp.date()]: the calendar day (counted from the epoch);
    [NaT.date()] is [NaT]. *)
Definition date (t : option Timestamp) : option Z :=
  match t with
  | Some ns => Some (ns / ns_per_day)
  | None => None
  end.

Record KPIs : Type := mkKPIs {
  latest_date : option Z;
  total_doses : Z;
  avg_daily : Z
}.

(** One row of [global_daily] and of [ent_df]. *)
Record DailyRow : Type := mkDaily {
  gd_Day : Timestamp;
  gd_doses : Z;
  gd_7d_avg : option Q
}.

(** [frame['7d_avg'] = column] *)
Definition assign_7d_avg (frame : list (Timestamp * Z))
    (col : list (option Q)) : list DailyRow :=
  map (fun ra => mkDaily (fst (fst ra)) (snd (fst ra)) (snd ra))
      (combine frame col).

(** Line 22. *)
Definition kpi_latest_date (df : DataFrame Timestamp) : option Z :=
  date (Day_max df).

(** Line 23. *)
Definition kpi_total_doses (df : DataFrame Timestamp) : result Z :=
  int (Some (inject_Z (nansum (map doses_daily df)))).

(** Line 24. *)
Definition kpi_avg_daily (df : DataFrame Timestamp) : result Z :=
  int (mean (map snd (groupby_sum Day doses_daily df))).

(** Lines 22-24, in order; the first exception ends the run. *)
Definition kpis (df : DataFrame Timestamp) : result KPIs :=
  let latest_date := kpi_latest_date df in
  total_doses <- kpi_total_doses df ;;
  avg_daily <- kpi_avg_daily df ;;
  Ok (mkKPIs latest_date total_doses avg_daily).

Section Main.
Context `{S : Sorter}.

(** Lines 32-33. *)
Definition global_daily (df : DataFrame Timestamp) : list DailyRow :=
  let global_daily :=
    sort_values fst true (groupby_sum Day doses_daily df) in
  assign_7d_avg global_daily (rolling_mean 7 1 (map snd global_daily)).

(** Line 42. *)
Definition top_entities (df : DataFrame Timestamp) : list (string * Z) :=
  sort_values snd false (groupby_sum Entity doses_daily df).

(** Line 44. *)
Definition top_to_show (df : DataFrame Timestamp) (top_n : Z)
  : list (string * Z) :=
  head top_n (top_entities df).

(** Lines 52-53. *)
Definition ent_df (df : DataFrame Timestamp) (chosen : string)
  : list DailyRow :=
  let ent_df :=
    sort_values fst true
      (groupby_sum Day doses_daily
         (filter (fun r => String.eqb (Entity r) chosen) df)) in
  assign_7d_avg ent_df (rolling_mean 7 1 (map snd ent_df)).
End Main.

(** ** The entity selector (lines 50-51) *)

(** [Series.unique()]: the distinct values in order of first appearance;
    [seen] is the table of the values met so far. *)
Fixpoint unique_from (seen col : list string) : list string :=
  match col with
  | [] => []
  | x :: col' =>
      if existsb (String.eqb x) seen then unique_from seen col'
      else x :: unique_from (x :: seen) col'
  end.

Definition unique (col : list string) : list string := unique_from [] col.

(** Python's [sorted]: ascending; each value goes in before the first one
    that is not smaller. *)
Fixpoint insert_sorted {K : Type} `{KeyOrder K} (x : K) (l : list K)
  : list K :=
  match l with
  | [] => [x]
  | y :: l' =>
      match kcmp x y with
      | Gt => y :: insert_sorted x l'
      | _ => x :: l
      end
  end.

Definition sorted {K : Type} `{KeyOrder K} (l : list K) : list K :=
  fold_right insert_sorted [] l.

Definition entities (df : DataFrame Timestamp) : list string :=
  unique (map Entity df).

(** The options offered by the select box. *)
Definition options (df : DataFrame Timestamp) : list string :=
  sorted (entities df).

(** [st.selectbox(..., index=0)] before the user picks: the first option,
    nothing when there is no option. *)
Definition chosen_default (df : DataFrame Timestamp) : option string :=
  hd_error (options df).

(** ** The preview of the generator script *)

Section Preview.
Context `{S : Sorter}.
Variable to_datetime : list string -> list (option Timestamp).

(** Generator, lines 12-14. *)
Definition preview_df (csv : DataFrame string) : DataFrame Timestamp :=
  let df := csv in
  let df := assign_Day df (to_datetime (map Day df)) in
  dropna_Day df.

(** Generator, line 19. *)
Definition top_countries (df : DataFrame Timestamp) : list (string * Z) :=
  head 15 (sort_values snd false (groupby_sum Entity doses_daily df)).

(** Generator, line 24: the rows of the preview bar chart. *)
Definition fig_top (df : DataFrame Timestamp) : list (string * Z) :=
  head 10 (top_countries df).
End Preview.

(** ** The texts of the metrics and of the chart titles *)

Local Open Scope string_scope.

(** The values that the formatted names hold. *)
Inductive pyval : Type :=
| VInt (z : Z)
| VStr (s : string).

(** [str(n)] of an integer. *)
Definition str (z : Z) : string := NilZero.string_of_int (Z.to_int z).

(** The separators of the format [','], placed on the digits taken from
    the last one: [k] digits are still to come before the next comma. *)
Fixpoint group3 (k : nat) (digits : list ascii) : list ascii :=
  match digits with
  | [] => []
  | c :: digits' =>
      match k with
      | O => ","%char :: c :: group3 2 digits'
      | S k' => c :: group3 k' digits'
      end
  end.

Definition with_commas (digits : string) : string :=
  string_of_list_ascii (rev (group3 3 (rev (list_ascii_of_string digits)))).

(** [format(n, ',')] of an integer: the sign, then the digits in groups of
    three. *)
Definition format_comma (z : Z) : string :=
  match Z.to_int z with
  | Decimal.Pos d => with_commas (NilZero.string_of_uint d)
  | Decimal.Neg d => String "-" (with_commas (NilZero.string_of_uint d))
  end.

(** [format(value, spec)] for the two specs the script uses, the empty one
    and [','], the latter on integers only. *)
Definition format (v : pyval) (spec : string) : option string :=
  match v with
  | VInt z =>
      if String.eqb spec "" then Some (str z)
      else if String.eqb spec "," then Some (format_comma z)
      else None
  | VStr s => if String.eqb spec "" then Some s else None
  end.

Fixpoint lookup (env : list (string * pyval)) (name : string)
  : option pyval :=
  match env with
  | [] => None
  | (n, v) :: env' => if String.eqb n name then Some v else lookup env' name
  end.

(** Evaluation of an f-string whose fields are names with an optional
    format spec.  In the text a doubled brace stands for one brace; a
    single opening brace starts a field, which runs to the closing one. *)
Inductive fmode : Type :=
| FText
| FName (name : string)
| FSpec (name spec : string).

Definition snoc_char (s : string) (c : ascii) : string :=
  s ++ String c "".

Definition prepend (head_ : option string) (tail_ : option string)
  : option string :=
  match head_, tail_ with
  | Some a, Some b => Some (a ++ b)
  | _, _ => None
  end.

Fixpoint fstring_from (env : list (string * pyval)) (m : fmode)
    (cs : list ascii) : option string :=
  match m, cs with
  | FText, [] => Some ""
  | FText, "{"%char :: "{"%char :: cs' =>
      prepend (Some "{") (fstring_from env FText cs')
  | FText, "}"%char :: "}"%char :: cs' =>
      prepend (Some "}") (fstring_from env FText cs')
  | FText, "{"%char :: cs' => fstring_from env (FName "") cs'
  | FText, "}"%char :: _ => None
  | FText, c :: cs' =>
      prepend (Some (String c "")) (fstring_from env FText cs')
  | FName _, [] => None
  | FName name, "}"%char :: cs' =>
      prepend (match lookup env name with
               | Some v => format v ""
               | None => None
               end)
              (fstring_from env FText cs')
  | FName name, ":"%char :: cs' => fstring_from env (FSpec name "") cs'
  | FName name, c :: cs' => fstring_from env (FName (snoc_char name c)) cs'
  | FSpec _ _, [] => None
  | FSpec name spec, "}"%char :: cs' =>
      prepend (match lookup env name with
               | Some v => format v spec
               | None => None
               end)
              (fstring_from env FText cs')
  | FSpec name spec, c :: cs' =>
      fstring_from env (FSpec name (snoc_char spec c)) cs'
  end.

Definition fstring (env : list (string * pyval)) (template : string)
  : option string :=
  fstring_from env FText (list_ascii_of_string template).

(** Line 28. *)
Definition col2_metric (total_doses : Z) : option string :=
  fstring [("total_doses", VInt total_doses)] "{total_doses:,}".

(** Line 29. *)
Definition col3_metric (avg_daily : Z) : option string :=
  fstring [("avg_daily", VInt avg_daily)] "{avg_daily:,}".

(** Line 45. *)
Definition fig2_title (top_n : Z) : option string :=
  fstring [("top_n", VInt top_n)] "Top {{top_n}} Entities by Total Doses".

(** Line 54. *)
Definition fig3_title (chosen : string) : option string :=
  fstring [("chosen", VStr chosen)] "Daily Doses - {{chosen}}".

Local Close Scope string_scope.

(** ** Vocabulary of the specification *)

(** Civil date to timestamp (proleptic Gregorian calendar, midnight). *)
Definition days_from_civil (y m d : Z) : Z :=
  let y' := if m <=? 2 then y - 1 else y in
  let era := y' / 400 in
  let yoe := y' - era * 400 in
  let doy := (153 * (if 2 <? m then m - 3 else m + 9) + 2) / 5 + d - 1 in
  let doe := yoe * 365 + yoe / 4 - yoe / 100 + doy in
  era * 146097 + doe - 719468.

Definition ymd (y m d : Z) : Timestamp := days_from_civil y m d * ns_per_day.

(** A reference date parser for [to_datetime]: ISO 8601 calendar dates
    [YYYY-MM-DD]; any other text is [NaT]. *)
Definition digit (c : ascii) : option Z :=
  let n := Z.of_N (N_of_ascii c) in
  if (48 <=? n) && (n <=? 57) then Some (n - 48) else None.

Fixpoint digits (acc : Z) (cs : list ascii) : option Z :=
  match cs with
  | [] => Some acc
  | c :: cs' =>
      match digit c with
      | Some d => digits (10 * acc + d) cs'
      | None => None
      end
  end.

Definition is_leap (y : Z) : bool :=
  ((y mod 4 =? 0) && negb (y mod 100 =? 0)) || (y mod 400 =? 0).

Definition days_in_month (y m : Z) : Z :=
  if m =? 2 then (if is_leap y then 29 else 28)
  else if (m =? 4) || (m =? 6) || (m =? 9) || (m =? 11) then 30 else 31.

Definition parse_iso_date (s : string) : option Timestamp :=
  match list_ascii_of_string s with
  | [y1; y2; y3; y4; "-"%char; m1; m2; "-"%char; d1; d2] =>
      match digits 0 [y1; y2; y3; y4], digits 0 [m1; m2], digits 0 [d1; d2] with
      | Some y, Some m, Some d =>
          if (1 <=? m) && (m <=? 12) && (1 <=? d) && (d <=? days_in_month y m)
          then Some (ymd y m d) else None
      | _, _, _ => None
      end
  | _ => None
  end.

Definition to_datetime_iso (col : list string) : list (option Timestamp) :=
  map parse_iso_date col.

(** The records whose entity is [e]. *)
Definition records_of (e : string) (df : DataFrame Timestamp)
  : DataFrame Timestamp :=
  filter (fun r => if string_dec (Entity r) e then true else false) df.

(** The total of entity [e] over all its records. *)
Definition entity_total (e : string) (df : DataFrame Timestamp) : Z :=
  nansum (map doses_daily (records_of e df)).

(** The cells of [col] at positions [lo .. hi-1]. *)
Definition slice {A : Type} (lo hi : nat) (col : list A) : list A :=
  firstn (hi - lo) (skipn lo col).

(** The mean of [col] at positions [max(0, i-6) .. i], inclusive. *)
Definition window_mean (col : list Z) (i : nat) : option Q :=
  mean (slice (Nat.max 0 (i - 6)) (i + 1) col).

(** The number of distinct entities of a record set. *)
Definition distinct_entities (df : DataFrame Timestamp) : nat :=
  length (nodup string_dec (map Entity df)).

(** The rows that [load_data] is to retain, in the words of the
    specification: walking the input in file order, a row whose date parsed
    is kept with that date and its other two cells, a row whose date did not
    parse is skipped. *)
Inductive Retained {D : Type}
  : DataFrame D -> list (option Timestamp) -> DataFrame Timestamp -> Prop :=
| Retained_nil : Retained [] [] []
| Retained_keep r t csv parsed out :
    Retained csv parsed out ->
    Retained (r :: csv) (Some t :: parsed)
             (mkRow (Entity r) t (doses_daily r) :: out)
| Retained_drop r csv parsed out :
    Retained csv parsed out ->
    Retained (r :: csv) (None :: parsed) out.

(** The number of cells of a coerced date column that hold a date. *)
Definition parsed_count (parsed : list (option Timestamp)) : nat :=
  length (filter (fun p => match p with Some _ => true | None => false end)
                 parsed).

(** Position of the first record of entity [e] in the input. *)
Fixpoint first_row (e : string) (df : DataFrame Timestamp) : nat :=
  match df with
  | [] => O
  | r :: df' => if String.eqb (Entity r) e then O else S (first_row e df')
  end.

(** Entities with equal totals come in the order in which they first occur
    in the input records. *)
Definition ties_in_input_order (df : DataFrame Timestamp)
    (ranking : list (string * Z)) : Prop :=
  ForallOrdPairs
    (fun a b => snd a = snd b ->
                (first_row (fst a) df < first_row (fst b) df)%nat)
    ranking.

(** Entities with equal totals come in ascending order of their names. *)
Definition ties_in_name_order (ranking : list (string * Z)) : Prop :=
  ForallOrdPairs (fun a b => snd a = snd b -> klt (fst a) (fst b)) ranking.

(** Truncation of the exact quotient [s / n] toward zero. *)
Definition truncates (s n a : Z) : Prop :=
  Z.abs a * n <= Z.abs s < (Z.abs a + 1) * n /\ 0 <= a * s.

(** A text without a comma. *)
Definition no_comma (cs : list ascii) : Prop :=
  Forall (fun c => c <> ","%char) cs.

(** The text without its commas. *)
Definition remove_commas (s : string) : string :=
  string_of_list_ascii
    (filter (fun c => negb (Ascii.eqb c ","%char)) (list_ascii_of_string s)).

(** The integer a decimal numeral denotes. *)
Definition Z_of_string (s : string) : option Z :=
  option_map Z.of_int (NilZero.int_of_string s).

(** The character at position [p] of a text, counted from its end. *)
Definition char_from_end (s : string) (p : nat) : option ascii :=
  nth_error (rev (list_ascii_of_string s)) p.

(** ** Sample inputs *)

Local Open Scope string_scope.

(** The records of the specification's worked example. *)
Definition sample : DataFrame Timestamp :=
  [ mkRow "A" (ymd 2021 1 1) (Some 10);
    mkRow "B" (ymd 2021 1 1) (Some 5);
    mkRow "A" (ymd 2021 1 2) (Some 20) ].

(** Two entities with the same total, in both input orders. *)
Definition tie_BA : DataFrame Timestamp :=
  [ mkRow "B" (ymd 2021 1 1) (Some 5); mkRow "A" (ymd 2021 1 1) (Some 5) ].

Definition tie_AB : DataFrame Timestamp :=
  [ mkRow "A" (ymd 2021 1 1) (Some 5); mkRow "B" (ymd 2021 1 1) (Some 5) ].

(** A file with a bad date, a missing count and a negative count, its
    dates out of order. *)
Definition sample_csv : DataFrame string :=
  [ mkRow "B" "2021-01-02" None;
    mkRow "A" "not a date" (Some 7);
    mkRow "A" "2021-01-01" (Some (-3)) ].

(** A file whose dates all parse. *)
Definition good_csv : DataFrame string :=
  [ mkRow "B" "2021-01-02" None; mkRow "A" "2021-01-01" (Some 4) ].

(** A file without a readable date. *)
Definition bad_csv : DataFrame string :=
  [ mkRow "A" "?" (Some 1); mkRow "B" "2021-13-01" (Some 2) ].

(** Two days with a negative mean. *)
Definition negative_days : DataFrame Timestamp :=
  [ mkRow "A" (ymd 2021 1 1) (Some (-5)); mkRow "A" (ymd 2021 1 2) (Some 0) ].

(** Eight days of one entity, 1 to 8 doses. *)
Definition eight_days : DataFrame Timestamp :=
  map (fun d => mkRow "A" (ymd 2021 1 d) (Some d)) [1; 2; 3; 4; 5; 6; 7; 8].

Local Close Scope string_scope.

(** * Properties *)

(** ** Sums *)

Lemma nansum_app (a b : list (option Z)) :
  nansum (a ++ b) = nansum a + nansum b.
Proof.
  induction a as [|v a IH]; simpl; [reflexivity|]. rewrite IH. lia.
Qed.

Lemma zsum_app (a b : list Z) : zsum (a ++ b) = zsum a + zsum b.
Proof.
  induction a as [|v a IH]; simpl; [reflexivity|]. rewrite IH. lia.
Qed.

Lemma zsum_perm (a b : list Z) : Permutation a b -> zsum a = zsum b.
Proof.
  induction 1; simpl; lia.
Qed.

Lemma filter_none {A : Type} (f : A -> bool) (l : list A) :
  existsb f l = false -> filter f l = [].
Proof.
  induction l as [|a l IH]; simpl; [reflexivity|].
  destruct (f a); simpl; [discriminate|assumption].
Qed.

(** ** Sorted lists *)

Section StronglySortedFacts.
Context {A : Type}.

Lemma StronglySorted_app_iff (R : A -> A -> Prop) (l1 l2 : list A) :
  StronglySorted R (l1 ++ l2) <->
  StronglySorted R l1 /\ StronglySorted R l2 /\
  (forall x y, In x l1 -> In y l2 -> R x y).
Proof.
  induction l1 as [|a l1 IH]; simpl.
  - split; [intros H; repeat split; [constructor|assumption|tauto]|tauto].
  - split.
    + intros H. inversion H as [|? ? Hs Hf]; subst.
      apply IH in Hs. destruct Hs as (H1 & H2 & H12).
      rewrite Forall_app in Hf. destruct Hf as [Hf1 Hf2].
      repeat split; auto.
      * constructor; assumption.
      * intros x y [<-|Hx] Hy; [|auto].
        rewrite Forall_forall in Hf2. auto.
    + intros (H1 & H2 & H12). inversion H1 as [|? ? Hs Hf]; subst.
      constructor.
      * apply IH. repeat split; auto.
      * rewrite Forall_app. split; [assumption|].
        rewrite Forall_forall. intros y Hy. apply H12; auto.
Qed.

Lemma StronglySorted_rev (R : A -> A -> Prop) (l : list A) :
  StronglySorted R l -> StronglySorted (fun x y => R y x) (rev l).
Proof.
  induction 1 as [|a l Hs IH Hf]; simpl; [constructor|].
  apply StronglySorted_app_iff. repeat split.
  - assumption.
  - constructor; constructor.
  - intros x y Hx [<-|[]]. rewrite Forall_forall in Hf.
    apply Hf. apply in_rev. assumption.
Qed.
End StronglySortedFacts.

Section SortedFacts.
Context {A : Type}.
Variable key : A -> Z.

Let le_key (x y : A) : Prop := key x <= key y.
Let ge_key (x y : A) : Prop := key y <= key x.

(** A sorted list has one sorted arrangement when its keys differ. *)
Lemma sorted_perm_unique (l1 l2 : list A) :
  NoDup (map key l1) ->
  StronglySorted le_key l1 -> StronglySorted le_key l2 ->
  Permutation l1 l2 -> l1 = l2.
Proof.
  revert l2. induction l1 as [|a l1 IH]; intros l2 Hnd H1 H2 Hp.
  - apply Permutation_nil in Hp. congruence.
  - destruct l2 as [|b l2].
    { apply Permutation_sym, Permutation_nil in Hp. discriminate. }
    inversion H1 as [|? ? Hs1 Hf1]; subst.
    inversion H2 as [|? ? Hs2 Hf2]; subst.
    inversion Hnd as [|? ? Hnin Hnd']; subst.
    rewrite Forall_forall in Hf1, Hf2.
    assert (Hab : a = b).
    { assert (Ha : In a (b :: l2))
        by (eapply Permutation_in; [exact Hp|left; reflexivity]).
      assert (Hb : In b (a :: l1))
        by (eapply Permutation_in;
            [apply Permutation_sym; exact Hp|left; reflexivity]).
      destruct Hb as [Hb|Hb]; [assumption|].
      destruct Ha as [Ha|Ha]; [congruence|].
      exfalso. apply Hnin.
      assert (Hk : key a = key b).
      { pose proof (Hf1 _ Hb). pose proof (Hf2 _ Ha).
        unfold le_key in *. lia. }
      rewrite Hk. apply in_map. assumption. }
    subst b. f_equal. apply IH; auto.
    eapply Permutation_cons_inv. exact Hp.
Qed.

Lemma insert_by_perm (x : A) (l : list A) :
  Permutation (x :: l) (insert_by key x l).
Proof.
  induction l as [|y l IH]; simpl; [reflexivity|].
  destruct (key x <=? key y); [reflexivity|].
  rewrite perm_swap. constructor. assumption.
Qed.

Lemma insertion_sort_perm (l : list A) :
  Permutation l (insertion_sort key l).
Proof.
  induction l as [|x l IH]; simpl; [constructor|].
  rewrite <- insert_by_perm. constructor. assumption.
Qed.

Lemma insert_by_sorted (x : A) (l : list A) :
  StronglySorted le_key l -> StronglySorted le_key (insert_by key x l).
Proof.
  induction 1 as [|y l Hs IH Hf]; simpl.
  - repeat constructor.
  - destruct (Z.leb_spec (key x) (key y)) as [Hxy|Hxy].
    + constructor; [constructor; assumption|].
      constructor; [assumption|].
      eapply Forall_impl; [|exact Hf].
      unfold le_key. intros; lia.
    + constructor; [assumption|].
      eapply Permutation_Forall; [apply insert_by_perm|].
      constructor; [unfold le_key; lia|assumption].
Qed.

Lemma insertion_sort_sorted (l : list A) :
  StronglySorted le_key (insertion_sort key l).
Proof.
  induction l as [|x l IH]; simpl; [constructor|].
  apply insert_by_sorted. assumption.
Qed.

Lemma insert_by_filter (k : Z) (x : A) (l : list A) :
  filter (fun y => key y =? k) (insert_by key x l)
  = filter (fun y => key y =? k) (x :: l).
Proof.
  induction l as [|y l IH]; [reflexivity|].
  cbn [insert_by].
  destruct (Z.leb_spec (key x) (key y)) as [Hxy|Hxy]; [reflexivity|].
  cbn [filter] in *. rewrite IH.
  destruct (Z.eqb_spec (key y) k), (Z.eqb_spec (key x) k);
    try reflexivity; lia.
Qed.

Lemma insertion_sort_filter (k : Z) (l : list A) :
  filter (fun y => key y =? k) (insertion_sort key l)
  = filter (fun y => key y =? k) l.
Proof.
  induction l as [|x l IH]; [reflexivity|].
  cbn [insertion_sort fold_right]. fold (insertion_sort key l).
  rewrite insert_by_filter. cbn [filter]. rewrite IH. reflexivity.
Qed.
End SortedFacts.

(** Insertion sort as an instance of the contract, and a stable one. *)
Definition insertion_sorter : Sorter := {|
  argsort := @insertion_sort;
  argsort_perm := @insertion_sort_perm;
  argsort_sorted := @insertion_sort_sorted
|}.

Lemma insertion_sorter_stable : stable insertion_sorter.
Proof.
  intros A key l k. apply insertion_sort_filter.
Qed.

(** Insertion sort of the reversed rows meets the contract as well, and
    turns ties around. *)
Definition reversing_sorter : Sorter.
Proof.
  refine {| argsort := fun A key l => insertion_sort key (rev l) |}.
  - intros A key l. rewrite <- insertion_sort_perm. apply Permutation_rev.
  - intros A key l. apply insertion_sort_sorted.
Defined.

(** ** groupby *)

Section GroupByFacts.
Context {K : Type} `{KO : KeyOrder K}.

Lemma kcmp_eq (a b : K) : kcmp a b = Eq <-> a = b.
Proof.
  destruct (kcmp_spec a b) as [E|L|G]; split; try discriminate; auto.
  - intros ->. exfalso. eapply kcmp_irrefl; eauto.
  - intros ->. exfalso. eapply kcmp_irrefl; eauto.
Qed.

Lemma kcmp_gt (a b : K) : kcmp a b = Gt -> kcmp b a = Lt.
Proof.
  destruct (kcmp_spec a b); auto; discriminate.
Qed.

Lemma key_eqb_eq (a b : K) : key_eqb a b = true <-> a = b.
Proof.
  unfold key_eqb. rewrite <- kcmp_eq.
  destruct (kcmp a b); split; auto; discriminate.
Qed.

Lemma key_eqb_sym (a b : K) : key_eqb a b = key_eqb b a.
Proof.
  destruct (key_eqb a b) eqn:E1, (key_eqb b a) eqn:E2; auto.
  - apply key_eqb_eq in E1. subst. rewrite <- E2. symmetry.
    apply key_eqb_eq. reflexivity.
  - apply key_eqb_eq in E2. subst. rewrite <- E1.
    apply key_eqb_eq. reflexivity.
Qed.

Lemma klt_sorted_NoDup (ks : list K) : StronglySorted klt ks -> NoDup ks.
Proof.
  induction 1 as [|k ks Hs IH Hf]; constructor; [|assumption].
  intros Hin. rewrite Forall_forall in Hf.
  apply (kcmp_irrefl k). apply Hf. assumption.
Qed.

Lemma upsert_sum (k : K) (v : Z) (g : list (K * Z)) :
  zsum (map snd (upsert k v g)) = zsum (map snd g) + v.
Proof.
  induction g as [|[k' v'] g IH]; simpl; [lia|].
  destruct (kcmp k k'); simpl; lia.
Qed.

Lemma upsert_keys (k k0 : K) (v : Z) (g : list (K * Z)) :
  In k0 (map fst (upsert k v g)) <-> k0 = k \/ In k0 (map fst g).
Proof.
  induction g as [|[k' v'] g IH]; simpl.
  - intuition.
  - destruct (kcmp k k') eqn:E; simpl.
    + apply kcmp_eq in E. subst k'. intuition.
    + intuition.
    + rewrite IH. intuition.
Qed.

Lemma upsert_sorted (k : K) (v : Z) (g : list (K * Z)) :
  StronglySorted klt (map fst g) ->
  StronglySorted klt (map fst (upsert k v g)).
Proof.
  induction g as [|[k' v'] g IH]; simpl; intros Hs.
  - repeat constructor.
  - inversion Hs as [|? ? Hs' Hf]; subst.
    destruct (kcmp k k') eqn:E; simpl.
    + constructor; assumption.
    + constructor; [assumption|].
      constructor; [exact E|].
      eapply Forall_impl; [|exact Hf].
      intros a Ha. eapply kcmp_trans; eauto.
    + constructor; [auto|].
      rewrite Forall_forall in *. intros a Ha.
      apply upsert_keys in Ha. destruct Ha as [->|Ha]; [|auto].
      apply kcmp_gt. assumption.
Qed.

Lemma slot_absent (k : K) (g : list (K * Z)) :
  ~ In k (map fst g) -> slot k g = None.
Proof.
  induction g as [|[k' v'] g IH]; simpl; intros Hn; [reflexivity|].
  destruct (kcmp k k') eqn:E.
  - apply kcmp_eq in E. subst k'. tauto.
  - apply IH. tauto.
  - apply IH. tauto.
Qed.

Lemma slot_upsert (k k0 : K) (v : Z) (g : list (K * Z)) :
  StronglySorted klt (map fst g) ->
  slot k0 (upsert k v g)
  = if key_eqb k0 k then Some (nan0 (slot k0 g) + v) else slot k0 g.
Proof.
  induction g as [|[k' v'] g IH]; simpl; intros Hs.
  - unfold key_eqb. destruct (kcmp k0 k); reflexivity.
  - inversion Hs as [|? ? Hs' Hf]; subst. specialize (IH Hs').
    destruct (key_eqb k0 k) eqn:E0.
    + apply key_eqb_eq in E0. subst k0.
      destruct (kcmp k k') eqn:E; simpl.
      * rewrite E. reflexivity.
      * destruct (kcmp k k) eqn:Ekk.
        -- rewrite slot_absent; [reflexivity|].
           intros Hin. rewrite Forall_forall in Hf.
           apply (kcmp_irrefl k). eapply kcmp_trans; eauto.
           apply Hf. assumption.
        -- exfalso. eapply kcmp_irrefl; eauto.
        -- exfalso. apply kcmp_gt in Ekk. eapply kcmp_irrefl; eauto.
      * rewrite E. rewrite IH.
        replace (key_eqb k k) with true
          by (symmetry; apply key_eqb_eq; reflexivity).
        reflexivity.
    + assert (Hne : kcmp k0 k <> Eq).
      { unfold key_eqb in E0. destruct (kcmp k0 k); congruence. }
      destruct (kcmp k k') eqn:E; simpl.
      * apply kcmp_eq in E. subst k'.
        destruct (kcmp k0 k) eqn:E'; congruence.
      * destruct (kcmp k0 k) eqn:E'; congruence.
      * rewrite IH. reflexivity.
Qed.

Lemma slot_present (k : K) (v : Z) (g : list (K * Z)) :
  StronglySorted klt (map fst g) -> In (k, v) g -> slot k g = Some v.
Proof.
  induction g as [|[k' v'] g IH]; simpl; intros Hs Hin; [tauto|].
  inversion Hs as [|? ? Hs' Hf]; subst.
  destruct Hin as [Heq|Hin].
  - inversion Heq; subst.
    replace (kcmp k k) with Eq by (symmetry; apply kcmp_eq; reflexivity).
    reflexivity.
  - rewrite Forall_forall in Hf.
    assert (Hlt : kcmp k' k = Lt).
    { apply Hf. change k with (fst (k, v)). apply in_map. assumption. }
    destruct (kcmp k k') eqn:E; auto.
    apply kcmp_eq in E. subst. exfalso. eapply kcmp_irrefl; eauto.
Qed.

Context {R : Type}.
Variable key : R -> K.
Variable value : R -> option Z.

Lemma groupby_sum_snoc (rows : list R) (r : R) :
  groupby_sum key value (rows ++ [r])
  = upsert (key r) (nan0 (value r)) (groupby_sum key value rows).
Proof.
  unfold groupby_sum. rewrite fold_left_app. reflexivity.
Qed.

(** Regrouping conserves the total. *)
Lemma groupby_sum_total (rows : list R) :
  zsum (map snd (groupby_sum key value rows)) = nansum (map value rows).
Proof.
  induction rows as [|r rows IH] using rev_ind; [reflexivity|].
  rewrite groupby_sum_snoc, upsert_sum, IH, map_app, nansum_app.
  simpl. lia.
Qed.

(** The groups come in strictly ascending key order. *)
Lemma groupby_sum_sorted (rows : list R) :
  StronglySorted klt (map fst (groupby_sum key value rows)).
Proof.
  induction rows as [|r rows IH] using rev_ind; [constructor|].
  rewrite groupby_sum_snoc. apply upsert_sorted. assumption.
Qed.

(** There is one group per key that occurs. *)
Lemma groupby_sum_keys (rows : list R) (k : K) :
  In k (map fst (groupby_sum key value rows)) <-> In k (map key rows).
Proof.
  induction rows as [|r rows IH] using rev_ind; [simpl; tauto|].
  rewrite groupby_sum_snoc, upsert_keys, IH, map_app, in_app_iff.
  simpl. intuition.
Qed.

(** A group's value is the sum of the cells of the rows with its key. *)
Lemma groupby_sum_slot (rows : list R) (k : K) :
  slot k (groupby_sum key value rows)
  = if existsb (fun r => key_eqb (key r) k) rows
    then Some (nansum (group_cells key value k rows)) else None.
Proof.
  induction rows as [|r rows IH] using rev_ind; [reflexivity|].
  rewrite groupby_sum_snoc, slot_upsert by apply groupby_sum_sorted.
  rewrite IH, existsb_app. unfold group_cells.
  rewrite filter_app, map_app, nansum_app. simpl.
  rewrite (key_eqb_sym k (key r)).
  destruct (existsb _ rows) eqn:Ex.
  - destruct (key_eqb (key r) k); simpl; [f_equal; lia|].
    rewrite Z.add_0_r. reflexivity.
  - rewrite (filter_none _ _ Ex).
    destruct (key_eqb (key r) k); simpl; [f_equal; lia|reflexivity].
Qed.

Lemma groupby_sum_group (rows : list R) (k : K) (v : Z) :
  In (k, v) (groupby_sum key value rows) ->
  v = nansum (group_cells key value k rows).
Proof.
  intros Hin.
  apply slot_present in Hin; [|apply groupby_sum_sorted].
  rewrite groupby_sum_slot in Hin.
  destruct (existsb _ rows); congruence.
Qed.

Lemma groupby_sum_length (rows : list R)
    (dec : forall a b : K, {a = b} + {a <> b}) :
  length (groupby_sum key value rows) = length (nodup dec (map key rows)).
Proof.
  rewrite <- (length_map fst).
  apply Permutation_length, NoDup_Permutation.
  - apply klt_sorted_NoDup, groupby_sum_sorted.
  - apply NoDup_nodup.
  - intros k. rewrite groupby_sum_keys, nodup_In. reflexivity.
Qed.
End GroupByFacts.

(** ** The rolling mean *)

Section Rolling.
Local Open Scope nat_scope.

Lemma skipn_nth (col : list Z) (i : nat) :
  i < length col -> skipn i col = nth i col 0%Z :: skipn (S i) col.
Proof.
  revert i. induction col as [|x col IH]; intros [|i] Hi; simpl in *;
    try lia; [reflexivity|].
  apply IH. lia.
Qed.

Lemma slice_length (lo hi : nat) (col : list Z) :
  hi <= length col -> length (slice lo hi col) = hi - lo.
Proof.
  intros H. unfold slice. rewrite length_firstn, length_skipn. lia.
Qed.

Lemma slice_empty (lo : nat) (col : list Z) : slice lo lo col = [].
Proof.
  unfold slice. rewrite Nat.sub_diag. reflexivity.
Qed.

Lemma slice_uncons (lo hi : nat) (col : list Z) :
  lo < hi -> lo < length col ->
  slice lo hi col = nth lo col 0%Z :: slice (S lo) hi col.
Proof.
  intros Hlh Hlo. unfold slice. rewrite (skipn_nth col lo Hlo).
  replace (hi - lo) with (S (hi - S lo)) by lia. reflexivity.
Qed.

Lemma firstn_snoc (n : nat) (l : list Z) :
  n < length l -> firstn (S n) l = firstn n l ++ [nth n l 0%Z].
Proof.
  revert n. induction l as [|x l IH]; intros [|n] Hn; simpl in *;
    try lia; [reflexivity|].
  f_equal. apply IH. lia.
Qed.

Lemma nth_skipn_add (lo n : nat) (l : list Z) :
  nth n (skipn lo l) 0%Z = nth (lo + n) l 0%Z.
Proof.
  revert l. induction lo as [|lo IH]; intros [|x l]; simpl; auto.
  destruct n; reflexivity.
Qed.

Lemma slice_snoc (lo hi : nat) (col : list Z) :
  lo <= hi -> hi < length col ->
  slice lo (S hi) col = slice lo hi col ++ [nth hi col 0%Z].
Proof.
  intros Hlh Hhi. unfold slice.
  replace (S hi - lo) with (S (hi - lo)) by lia.
  rewrite firstn_snoc by (rewrite length_skipn; lia).
  rewrite nth_skipn_add. replace (lo + (hi - lo)) with hi by lia.
  reflexivity.
Qed.

(** The running sum and count of [roll_mean] are those of the window that
    ends at the current row. *)
Lemma roll_mean_windows (w minp : nat) (col : list Z) :
  0 < w ->
  forall n i, n + i = length col ->
    roll_mean w minp i (skipn (i - w) col) (skipn i col)
              (zsum (slice (i - w) i col)) (i - (i - w))
    = map (fun j => calc_mean minp (S j - (S j - w))
                              (zsum (slice (S j - w) (S j) col)))
          (seq i n).
Proof.
  intros Hw. induction n as [|n IH]; intros i Hi.
  - replace (skipn i col) with (@nil Z)
      by (symmetry; apply skipn_all2; lia).
    reflexivity.
  - rewrite (skipn_nth col i) by lia.
    cbn [roll_mean seq map].
    assert (Hsum : (zsum (slice (S i - w) (S i) col)
                    = zsum (slice (S i - w) i col) + nth i col 0)%Z).
    { rewrite slice_snoc by lia. rewrite zsum_app. simpl. lia. }
    destruct (Nat.leb_spec w i) as [Hwi|Hwi].
    + rewrite (skipn_nth col (i - w)) by lia.
      assert (Hdel : (zsum (slice (i - w) i col)
                      = nth (i - w) col 0 + zsum (slice (S i - w) i col))%Z).
      { rewrite (slice_uncons (i - w) i) by lia.
        replace (S (i - w)) with (S i - w) by lia. reflexivity. }
      replace (zsum (slice (i - w) i col) - nth (i - w) col 0
               + nth i col 0)%Z
        with (zsum (slice (S i - w) (S i) col)) by lia.
      replace (S (Nat.pred (i - (i - w)))) with (S i - (S i - w)) by lia.
      replace (S (i - w)) with (S i - w) by lia.
      f_equal. apply IH. lia.
    + replace (i - w) with 0 in * by lia.
      replace (S i - w) with 0 in * by lia.
      replace (zsum (slice 0 i col) + nth i col 0)%Z
        with (zsum (slice 0 (S i) col)) by lia.
      replace (S (i - 0)) with (S i - 0) by lia.
      f_equal.
      specialize (IH (S i)).
      replace (S i - w) with 0 in IH by lia.
      apply IH. lia.
Qed.

Lemma window_mean_calc (col : list Z) (j : nat) :
  j < length col ->
  calc_mean 1 (S j - (S j - 7)) (zsum (slice (S j - 7) (S j) col))
  = window_mean col j.
Proof.
  intros Hj. unfold window_mean, calc_mean.
  replace (Nat.max 0 (j - 6)) with (S j - 7) by lia.
  replace (j + 1) with (S j) by lia.
  pose proof (slice_length (S j - 7) (S j) col ltac:(lia)) as Hlen.
  destruct (slice (S j - 7) (S j) col) as [|x l] eqn:E.
  - cbn [length] in Hlen. lia.
  - unfold mean. rewrite Hlen.
    destruct (S j - (S j - 7)) eqn:En; [lia|]. reflexivity.
Qed.

(** [rolling(7, min_periods=1).mean()], row by row. *)
Lemma rolling_mean_7_1 (col : list Z) :
  rolling_mean 7 1 col = map (window_mean col) (seq 0 (length col)).
Proof.
  unfold rolling_mean.
  pose proof (roll_mean_windows 7 1 col ltac:(lia) (length col) 0
                ltac:(lia)) as H.
  cbn [Nat.sub skipn] in H. rewrite slice_empty in H.
  cbn [zsum fold_right] in H. rewrite H.
  apply map_ext_in. intros j Hj. apply in_seq in Hj.
  apply window_mean_calc. lia.
Qed.

Lemma rolling_mean_length (col : list Z) :
  length (rolling_mean 7 1 col) = length col.
Proof.
  rewrite rolling_mean_7_1, length_map, length_seq. reflexivity.
Qed.
End Rolling.

(** ** The pipeline *)

Lemma assign_7d_avg_Day (frame : list (Timestamp * Z)) (col : list (option Q)) :
  length col = length frame ->
  map gd_Day (assign_7d_avg frame col) = map fst frame.
Proof.
  revert col. induction frame as [|p frame IH]; intros [|a col] H;
    simpl in *; try discriminate; [reflexivity|].
  f_equal. apply IH. lia.
Qed.

Lemma assign_7d_avg_doses (frame : list (Timestamp * Z))
    (col : list (option Q)) :
  length col = length frame ->
  map gd_doses (assign_7d_avg frame col) = map snd frame.
Proof.
  revert col. induction frame as [|p frame IH]; intros [|a col] H;
    simpl in *; try discriminate; [reflexivity|].
  f_equal. apply IH. lia.
Qed.

Lemma assign_7d_avg_nth (f : nat -> option Q) (frame : list (Timestamp * Z)) :
  forall (s i : nat) (row : DailyRow),
    nth_error (assign_7d_avg frame (map f (seq s (length frame)))) i
    = Some row ->
    gd_7d_avg row = f (s + i)%nat.
Proof.
  induction frame as [|p frame IH]; intros s [|i] row H; simpl in *;
    try discriminate.
  - inversion H; subst; simpl. f_equal. lia.
  - apply IH in H. rewrite H. f_equal. lia.
Qed.

Lemma klt_sorted_le (g : list (Z * Z)) :
  StronglySorted klt (map fst g) ->
  StronglySorted (fun x y => fst x <= fst y) g.
Proof.
  induction g as [|p g IH]; simpl; intros H; [constructor|].
  inversion H as [|? ? Hs Hf]; subst. constructor; [auto|].
  rewrite Forall_forall in *. intros q Hq.
  apply Z.lt_le_incl. apply (Hf (fst q)). apply in_map. assumption.
Qed.

Lemma klt_sorted_lt (ks : list Z) :
  StronglySorted klt ks -> StronglySorted Z.lt ks.
Proof.
  intros H. exact H.
Qed.

Lemma Z_key_eqb (a b : Z) : key_eqb a b = (a =? b).
Proof.
  destruct (Z.eqb_spec a b) as [E|E].
  - apply key_eqb_eq. assumption.
  - destruct (key_eqb a b) eqn:E'; [|reflexivity].
    apply key_eqb_eq in E'. contradiction.
Qed.

Lemma string_key_eqb (a b : string) :
  key_eqb a b = if string_dec a b then true else false.
Proof.
  destruct (string_dec a b) as [E|E].
  - apply key_eqb_eq. assumption.
  - destruct (key_eqb a b) eqn:E'; [|reflexivity].
    apply key_eqb_eq in E'. contradiction.
Qed.

Section Pipeline.
Context `{S : Sorter}.

(** A sort leaves alone rows that are already in order with keys that
    all differ. *)
Lemma argsort_sorted_id {A : Type} (key : A -> Z) (l : list A) :
  NoDup (map key l) ->
  StronglySorted (fun x y => key x <= key y) l ->
  argsort key l = l.
Proof.
  intros Hnd Hs. symmetry.
  apply (sorted_perm_unique key); auto.
  - apply argsort_sorted.
  - apply argsort_perm.
Qed.

Lemma sort_values_perm {A : Type} (key : A -> Z) (asc : bool) (l : list A) :
  Permutation l (sort_values key asc l).
Proof.
  unfold sort_values. destruct asc.
  - apply argsort_perm.
  - rewrite <- Permutation_rev. rewrite <- argsort_perm.
    apply Permutation_rev.
Qed.

Lemma sort_values_desc_sorted {A : Type} (key : A -> Z) (l : list A) :
  StronglySorted (fun x y => key y <= key x) (sort_values key false l).
Proof.
  unfold sort_values.
  apply (StronglySorted_rev (fun x y => key x <= key y)).
  apply argsort_sorted.
Qed.

(** [sort_values('Day')] finds the groups already in order. *)
Lemma sort_values_Day (rows : DataFrame Timestamp) :
  sort_values fst true (groupby_sum Day doses_daily rows)
  = groupby_sum Day doses_daily rows.
Proof.
  unfold sort_values. apply argsort_sorted_id.
  - apply klt_sorted_NoDup, groupby_sum_sorted.
  - apply klt_sorted_le, groupby_sum_sorted.
Qed.

Lemma global_daily_frame (df : DataFrame Timestamp) :
  global_daily df
  = let g := groupby_sum Day doses_daily df in
    assign_7d_avg g (map (window_mean (map snd g)) (seq 0 (length g))).
Proof.
  unfold global_daily. rewrite sort_values_Day. cbv zeta.
  rewrite rolling_mean_7_1, length_map. reflexivity.
Qed.

Lemma global_daily_Day (df : DataFrame Timestamp) :
  map gd_Day (global_daily df) = map fst (groupby_sum Day doses_daily df).
Proof.
  rewrite global_daily_frame. cbv zeta.
  apply assign_7d_avg_Day. rewrite length_map, length_seq. reflexivity.
Qed.

Lemma global_daily_doses (df : DataFrame Timestamp) :
  map gd_doses (global_daily df)
  = map snd (groupby_sum Day doses_daily df).
Proof.
  rewrite global_daily_frame. cbv zeta.
  apply assign_7d_avg_doses. rewrite length_map, length_seq. reflexivity.
Qed.

Lemma global_daily_rows (df : DataFrame Timestamp) (row : DailyRow) :
  In row (global_daily df) ->
  In (gd_Day row, gd_doses row) (groupby_sum Day doses_daily df).
Proof.
  rewrite global_daily_frame. cbv zeta. unfold assign_7d_avg.
  intros H. apply in_map_iff in H. destruct H as ([p a] & <- & H).
  apply in_combine_l in H. simpl. destruct p. assumption.
Qed.

(** C1. For every record set the [total_doses] column of [global_daily]
    sums to the sum of [daily_doses] over all records (missing cells
    adding nothing), and the headline total of line 23 is that same
    number. *)
Theorem C1_totals_conserved (df : DataFrame Timestamp) :
  zsum (map gd_doses (global_daily df)) = nansum (map doses_daily df)
  /\ kpi_total_doses df = Ok (nansum (map doses_daily df))
  /\ kpi_total_doses df = Ok (zsum (map gd_doses (global_daily df))).
Proof.
  assert (H : zsum (map gd_doses (global_daily df))
              = nansum (map doses_daily df)).
  { rewrite global_daily_doses. apply groupby_sum_total. }
  assert (H' : kpi_total_doses df = Ok (nansum (map doses_daily df))).
  { unfold kpi_total_doses, int, Qtrunc. simpl.
    rewrite Z.quot_1_r. reflexivity. }
  rewrite H. auto.
Qed.

(** C2. At every index [i] of the date-sorted global daily series the
    rolling average is the mean of the totals at positions
    [max(0, i-6) .. i]: for [i < 6] the mean of the first [i+1] totals,
    for [i >= 6] the mean of the 7 totals at [i-6 .. i]; it is never
    null. *)
Theorem C2_rolling_window (df : DataFrame Timestamp) (i : nat)
    (row : DailyRow) :
  nth_error (global_daily df) i = Some row ->
  let totals := map gd_doses (global_daily df) in
  gd_7d_avg row = window_mean totals i
  /\ (i < 6 -> gd_7d_avg row = mean (firstn (i + 1) totals))%nat
  /\ (6 <= i -> gd_7d_avg row = mean (slice (i - 6) (i + 1) totals)
                /\ length (slice (i - 6) (i + 1) totals) = 7)%nat
  /\ gd_7d_avg row <> None.
Proof.
  intros Hnth totals.
  assert (Hi : (i < length totals)%nat).
  { unfold totals. rewrite length_map. apply nth_error_Some. congruence. }
  assert (Hw : gd_7d_avg row = window_mean totals i).
  { unfold totals. rewrite global_daily_doses.
    rewrite global_daily_frame in Hnth. cbv zeta in Hnth.
    apply assign_7d_avg_nth in Hnth. exact Hnth. }
  split; [exact Hw|]. split; [|split].
  - intros Hlt. rewrite Hw. unfold window_mean, slice.
    replace (Nat.max 0 (i - 6)) with 0%nat by lia.
    rewrite Nat.sub_0_r. reflexivity.
  - intros Hge. split.
    + rewrite Hw. unfold window_mean.
      replace (Nat.max 0 (i - 6)) with (i - 6)%nat by lia. reflexivity.
    + rewrite slice_length; [lia|].
      rewrite <- (length_map (fun z : Z => z) totals) in Hi.
      rewrite map_id in Hi. lia.
  - rewrite Hw. unfold window_mean.
    pose proof (slice_length (Nat.max 0 (i - 6)) (i + 1) totals
                  ltac:(lia)) as Hlen.
    destruct (slice (Nat.max 0 (i - 6)) (i + 1) totals).
    + cbn [length] in Hlen. lia.
    + discriminate.
Qed.

(** C3. The rows of [global_daily] come in strictly ascending order of
    [Day], without a repeated day; the days are exactly the distinct days
    of the records; and the total of a day is the sum over all records of
    that day, whatever their entity. *)
Theorem C3_days_sorted_unique (df : DataFrame Timestamp) :
  let days := map gd_Day (global_daily df) in
  StronglySorted Z.lt days
  /\ NoDup days
  /\ (forall d, In d days <-> In d (map Day df))
  /\ (forall d, In d (map Day df) -> count_occ Z.eq_dec days d = 1%nat)
  /\ (forall row, In row (global_daily df) ->
        gd_doses row
        = nansum (map doses_daily
                      (filter (fun r => Day r =? gd_Day row) df))).
Proof.
  cbv zeta. rewrite global_daily_Day.
  pose proof (groupby_sum_sorted Day doses_daily df) as Hs.
  pose proof (klt_sorted_NoDup _ Hs) as Hnd.
  split; [apply klt_sorted_lt; exact Hs|].
  split; [exact Hnd|].
  split; [intros d; apply groupby_sum_keys|].
  split.
  - intros d Hd. apply (groupby_sum_keys Day doses_daily) in Hd.
    apply NoDup_count_occ' with (decA := Z.eq_dec) in Hd; assumption.
  - intros row Hrow. apply global_daily_rows in Hrow.
    apply groupby_sum_group in Hrow. rewrite Hrow. unfold group_cells.
    do 2 f_equal. apply filter_ext. intros r. apply Z_key_eqb.
Qed.
End Pipeline.

(** ** The entity ranking *)

Lemma entity_group_total (df : DataFrame Timestamp) (e : string) (t : Z) :
  In (e, t) (groupby_sum Entity doses_daily df) -> t = entity_total e df.
Proof.
  intros H. apply groupby_sum_group in H. rewrite H.
  unfold group_cells, entity_total, records_of. do 2 f_equal.
  apply filter_ext. intros r. apply string_key_eqb.
Qed.

Lemma head_nonneg {A : Type} (n : Z) (l : list A) :
  0 <= n -> head n l = firstn (Z.to_nat n) l.
Proof.
  intros H. unfold head. destruct (Z.leb_spec 0 n); [reflexivity|lia].
Qed.

Lemma head_prefix {A : Type} (n : Z) (l : list A) :
  exists m, head n l = firstn m l.
Proof.
  unfold head. destruct (0 <=? n); eexists; reflexivity.
Qed.

Section Ranking.
Context `{S : Sorter}.

Lemma top_entities_perm (df : DataFrame Timestamp) :
  Permutation (groupby_sum Entity doses_daily df) (top_entities df).
Proof.
  apply sort_values_perm.
Qed.

Lemma top_entities_length (df : DataFrame Timestamp) :
  length (top_entities df) = distinct_entities df.
Proof.
  rewrite <- (Permutation_length (top_entities_perm df)).
  apply groupby_sum_length.
Qed.

(** C4. For every [n >= 0] the ranking cut to [n] rows has
    [min(n, number of distinct entities)] rows, in descending order of
    total; each row carries an entity of the records with its total; an
    entity that is in has a total at least that of any entity left out;
    no entity occurs in two rows; and when [n] reaches the number of
    distinct entities the whole ranking is returned, no more and no less:
    every entity of the records has its row. *)
Theorem C4_top_n (df : DataFrame Timestamp) (n : Z) :
  0 <= n ->
  let top := top_to_show df n in
  length top = Nat.min (Z.to_nat n) (distinct_entities df)
  /\ StronglySorted (fun a b => snd b <= snd a) top
  /\ (forall e t, In (e, t) top ->
        In e (map Entity df) /\ t = entity_total e df)
  /\ (forall e e', In e (map fst top) -> In e' (map Entity df) ->
        ~ In e' (map fst top) ->
        entity_total e' df <= entity_total e df)
  /\ NoDup (map fst top)
  /\ ((distinct_entities df <= Z.to_nat n)%nat ->
        top = top_entities df /\ length top = distinct_entities df
        /\ (forall e, In e (map Entity df) <-> In e (map fst top))).
Proof.
  intros Hn top. unfold top, top_to_show. rewrite head_nonneg by assumption.
  set (m := Z.to_nat n). set (full := top_entities df).
  pose proof (sort_values_desc_sorted snd
                (groupby_sum Entity doses_daily df)) as Hsorted.
  fold (top_entities df) in Hsorted. fold full in Hsorted.
  rewrite <- (firstn_skipn m full) in Hsorted.
  apply StronglySorted_app_iff in Hsorted.
  destruct Hsorted as (Hs1 & _ & Hcut).
  assert (Hfull : forall e t, In (e, t) full ->
                    In e (map Entity df) /\ t = entity_total e df).
  { intros e t Hin.
    apply (Permutation_in _ (Permutation_sym (top_entities_perm df)))
      in Hin.
    split; [|apply entity_group_total; assumption].
    apply (groupby_sum_keys Entity doses_daily).
    change e with (fst (e, t)). apply in_map. assumption. }
  assert (Hsub : forall p, In p (firstn m full) -> In p full).
  { intros p Hp. rewrite <- (firstn_skipn m full).
    apply in_or_app. left. assumption. }
  split; [rewrite length_firstn; unfold full;
          rewrite top_entities_length; reflexivity|].
  split; [exact Hs1|].
  split; [intros e t Hin; apply Hfull, Hsub; assumption|].
  split.
  - intros e e' Hin Hin' Hout.
    apply in_map_iff in Hin. destruct Hin as ([e0 t] & He & Hin).
    simpl in He. subst e0.
    apply (groupby_sum_keys Entity doses_daily) in Hin'.
    apply in_map_iff in Hin'. destruct Hin' as ([e0 t'] & He & Hin').
    simpl in He. subst e0.
    pose proof (entity_group_total _ _ _ Hin') as Ht'.
    apply (Permutation_in _ (top_entities_perm df)) in Hin'.
    fold full in Hin'. rewrite <- (firstn_skipn m full) in Hin'.
    apply in_app_or in Hin'. destruct Hin' as [Hin'|Hin'].
    + exfalso. apply Hout. change e' with (fst (e', t')).
      apply in_map. assumption.
    + destruct (Hfull e t (Hsub _ Hin)) as [_ Ht].
      rewrite <- Ht, <- Ht'. apply (Hcut (e, t) (e', t')); assumption.
  - assert (Hnd : NoDup (map fst full)).
    { apply (Permutation_NoDup
               (Permutation_map fst (top_entities_perm df))).
      apply klt_sorted_NoDup, groupby_sum_sorted. }
    split.
    + rewrite <- (firstn_skipn m full), map_app in Hnd.
      apply NoDup_app_remove_r in Hnd. exact Hnd.
    + intros Hall.
      assert (Hlen : length full = distinct_entities df)
        by apply top_entities_length.
      rewrite firstn_all2 by lia.
      split; [reflexivity|]. split; [assumption|].
      intros e. rewrite <- (groupby_sum_keys Entity doses_daily df e).
      split; intros He.
      * eapply Permutation_in;
          [apply Permutation_map, top_entities_perm|exact He].
      * eapply Permutation_in;
          [apply Permutation_map, Permutation_sym, top_entities_perm
          |exact He].
Qed.

(** C6. The per-entity series is the global series of the records whose
    entity is exactly the chosen one; an entity without records gives the
    empty series. *)
Theorem C6_entity_daily (df : DataFrame Timestamp) (e : string) :
  ent_df df e = global_daily (records_of e df)
  /\ ((forall r, In r df -> Entity r <> e) -> ent_df df e = []).
Proof.
  assert (Hf : filter (fun r => String.eqb (Entity r) e) df = records_of e df).
  { unfold records_of. apply filter_ext. intros r.
    destruct (String.eqb_spec (Entity r) e), (string_dec (Entity r) e);
      congruence. }
  split.
  - unfold ent_df, global_daily. rewrite Hf. reflexivity.
  - intros Hnone. unfold ent_df. rewrite Hf.
    assert (Hnil : records_of e df = []).
    { unfold records_of. apply filter_none.
      apply not_true_iff_false. intros Hex.
      apply existsb_exists in Hex. destruct Hex as (r & Hr & Hre).
      destruct (string_dec (Entity r) e); [|discriminate].
      apply (Hnone r); assumption. }
    assert (Hg : sort_values fst true
                   (groupby_sum Day doses_daily (@nil (Row Timestamp)))
                 = []).
    { apply Permutation_nil.
      apply (sort_values_perm fst true (@nil (Timestamp * Z))). }
    rewrite Hnil, Hg. reflexivity.
Qed.
End Ranking.

(** ** The order of tied entities *)

Lemma nansum_perm (a b : list (option Z)) :
  Permutation a b -> nansum a = nansum b.
Proof.
  induction 1; simpl; lia.
Qed.

Lemma filter_perm {A : Type} (f : A -> bool) (l l' : list A) :
  Permutation l l' -> Permutation (filter f l) (filter f l').
Proof.
  induction 1 as [|x l l' Hp IH|x y l|l l' l'' Hp IH Hp' IH']; simpl.
  - constructor.
  - destruct (f x); [constructor|]; assumption.
  - destruct (f x), (f y); try reflexivity. apply perm_swap.
  - etransitivity; eassumption.
Qed.

Lemma existsb_perm {A : Type} (f : A -> bool) (l l' : list A) :
  Permutation l l' -> existsb f l = existsb f l'.
Proof.
  induction 1 as [|x l l' Hp IH|x y l|l l' l'' Hp IH Hp' IH']; simpl.
  - reflexivity.
  - rewrite IH. reflexivity.
  - destruct (f x), (f y); reflexivity.
  - congruence.
Qed.

Section GroupByOrder.
Context {K : Type} `{KO : KeyOrder K}.

Lemma slot_some_in (k : K) (v : Z) (g : list (K * Z)) :
  slot k g = Some v -> In k (map fst g).
Proof.
  induction g as [|[k' v'] g IH]; simpl; [discriminate|].
  destruct (kcmp k k') eqn:E; auto.
  apply kcmp_eq in E. auto.
Qed.

(** A table of groups in key order is fixed by its slots. *)
Lemma sorted_slot_ext (g1 g2 : list (K * Z)) :
  StronglySorted klt (map fst g1) -> StronglySorted klt (map fst g2) ->
  (forall k, slot k g1 = slot k g2) -> g1 = g2.
Proof.
  revert g2. induction g1 as [|[k1 v1] g1 IH]; intros [|[k2 v2] g2] H1 H2 Hs.
  - reflexivity.
  - specialize (Hs k2). simpl in Hs.
    replace (kcmp k2 k2) with Eq in Hs
      by (symmetry; apply kcmp_eq; reflexivity).
    discriminate.
  - specialize (Hs k1). simpl in Hs.
    replace (kcmp k1 k1) with Eq in Hs
      by (symmetry; apply kcmp_eq; reflexivity).
    discriminate.
  - simpl in H1, H2.
    inversion H1 as [|? ? Hs1 Hf1]; subst.
    inversion H2 as [|? ? Hs2 Hf2]; subst.
    rewrite Forall_forall in Hf1, Hf2.
    assert (Hk : k1 = k2).
    { pose proof (Hs k1) as Ha. pose proof (Hs k2) as Hb. simpl in Ha, Hb.
      replace (kcmp k1 k1) with Eq in Ha
        by (symmetry; apply kcmp_eq; reflexivity).
      replace (kcmp k2 k2) with Eq in Hb
        by (symmetry; apply kcmp_eq; reflexivity).
      destruct (kcmp k1 k2) eqn:E12; [apply kcmp_eq; assumption| |].
      - exfalso.
        assert (Hin : In k1 (map fst g2))
          by (eapply slot_some_in; symmetry; exact Ha).
        apply (kcmp_irrefl k1). eapply kcmp_trans; [exact E12|].
        apply Hf2. assumption.
      - exfalso. apply kcmp_gt in E12. rewrite E12 in Hb.
        assert (Hin : In k2 (map fst g1))
          by (eapply slot_some_in; exact Hb).
        apply (kcmp_irrefl k2). eapply kcmp_trans; [exact E12|].
        apply Hf1. assumption. }
    subst k2.
    assert (Hv : v1 = v2).
    { specialize (Hs k1). simpl in Hs.
      replace (kcmp k1 k1) with Eq in Hs
        by (symmetry; apply kcmp_eq; reflexivity).
      congruence. }
    subst v2. f_equal. apply IH; auto.
    intros k. specialize (Hs k). simpl in Hs.
    destruct (kcmp k k1) eqn:E; auto.
    apply kcmp_eq in E. subst k.
    rewrite !slot_absent; auto.
    + intros Hin. apply (kcmp_irrefl k1). apply Hf2. assumption.
    + intros Hin. apply (kcmp_irrefl k1). apply Hf1. assumption.
Qed.

Context {R : Type}.
Variable key : R -> K.
Variable value : R -> option Z.

(** Grouping forgets the order of the rows. *)
Lemma groupby_sum_perm (rows rows' : list R) :
  Permutation rows rows' ->
  groupby_sum key value rows = groupby_sum key value rows'.
Proof.
  intros Hp. apply sorted_slot_ext; try apply groupby_sum_sorted.
  intros k. rewrite !groupby_sum_slot.
  rewrite (existsb_perm _ _ _ Hp). unfold group_cells.
  rewrite (nansum_perm _ _ (Permutation_map value
                              (filter_perm (fun r => key_eqb (key r) k)
                                           _ _ Hp))).
  reflexivity.
Qed.
End GroupByOrder.

Lemma ForallOrdPairs_firstn {A : Type} (R : A -> A -> Prop) (m : nat)
    (l : list A) :
  ForallOrdPairs R l -> ForallOrdPairs R (firstn m l).
Proof.
  intros H. revert m. induction H as [|a l Hf Hl IH]; intros [|m]; simpl;
    try constructor.
  - rewrite Forall_forall in *. intros x Hx. apply Hf.
    rewrite <- (firstn_skipn m l). apply in_or_app. left. assumption.
  - apply IH.
Qed.

Lemma StronglySorted_filter' {A : Type} (R : A -> A -> Prop) (f : A -> bool)
    (l : list A) :
  StronglySorted R l -> StronglySorted R (filter f l).
Proof.
  induction 1 as [|a l Hs IH Hf]; simpl; [constructor|].
  destruct (f a); [|assumption].
  constructor; [assumption|].
  rewrite Forall_forall in *. intros x Hx. apply filter_In in Hx.
  apply Hf. tauto.
Qed.

(** Rows that are in order within each class of equal keys are in order
    wherever their keys are equal. *)
Lemma ties_from_classes {A : Type} (key : A -> Z) (R : A -> A -> Prop)
    (l : list A) :
  (forall t, StronglySorted R (filter (fun x => key x =? t) l)) ->
  ForallOrdPairs (fun a b => key a = key b -> R a b) l.
Proof.
  induction l as [|a l IH]; intros H; constructor.
  - rewrite Forall_forall. intros b Hb Hab.
    specialize (H (key a)). simpl in H. rewrite Z.eqb_refl in H.
    inversion H as [|? ? _ Hf]; subst.
    rewrite Forall_forall in Hf. apply Hf. apply filter_In.
    split; [assumption|]. apply Z.eqb_eq. congruence.
  - apply IH. intros t. specialize (H t). simpl in H.
    destruct (key a =? t); [|assumption].
    inversion H; assumption.
Qed.

Lemma klt_sorted_rows (g : list (string * Z)) :
  StronglySorted klt (map fst g) ->
  StronglySorted (fun a b => klt (fst a) (fst b)) g.
Proof.
  induction g as [|p g IH]; simpl; intros H; [constructor|].
  inversion H as [|? ? Hs Hf]; subst. constructor; [auto|].
  rewrite Forall_forall in *. intros q Hq.
  apply Hf. apply in_map. assumption.
Qed.

Section Ties.
Context `{S : Sorter}.

(** Under a stable sort the descending [sort_values] is stable too. *)
Lemma sort_values_stable {A : Type} (key : A -> Z) (asc : bool)
    (l : list A) (t : Z) :
  stable S ->
  filter (fun x => key x =? t) (sort_values key asc l)
  = filter (fun x => key x =? t) l.
Proof.
  intros Hst. unfold sort_values. destruct asc.
  - apply Hst.
  - rewrite filter_rev, Hst, filter_rev, rev_involutive. reflexivity.
Qed.

(** C5, as the code has it. The ranking is computed from the table of
    entity totals, which [groupby] lists in ascending order of entity
    name whatever the order of the records: reordering the records
    leaves the ranking unchanged.  With a stable sort, entities with
    equal totals therefore come in ascending order of their names (not
    in input order); no other sort key is involved. *)
Theorem C5_ties_by_name (df df' : DataFrame Timestamp) (n : Z) :
  Permutation df df' ->
  top_to_show df n = top_to_show df' n
  /\ (stable S -> ties_in_name_order (top_to_show df n)).
Proof.
  intros Hp. split.
  - unfold top_to_show, top_entities.
    rewrite (groupby_sum_perm Entity doses_daily df df' Hp). reflexivity.
  - intros Hst. unfold ties_in_name_order, top_to_show.
    destruct (head_prefix n (top_entities df)) as [m ->].
    apply ForallOrdPairs_firstn.
    apply (ties_from_classes snd (fun a b => klt (fst a) (fst b))).
    intros t. unfold top_entities.
    rewrite sort_values_stable by assumption.
    apply StronglySorted_filter', klt_sorted_rows, groupby_sum_sorted.
Qed.
End Ties.

(** C5, as stated, fails. With the records of B before those of A and equal
    totals, insertion sort ranks A before B; and whatever the sort, the
    ranking of [tie_BA] and of [tie_AB] is the same list, so it cannot
    follow the input order of both. *)
Lemma C5_ties_not_in_input_order :
  (top_to_show (S:=insertion_sorter) tie_BA 2
   = [("A"%string, 5); ("B"%string, 5)]
   /\ ~ ties_in_input_order tie_BA
         (top_to_show (S:=insertion_sorter) tie_BA 2))
  /\ ~ (exists S : Sorter,
          ties_in_input_order tie_BA (@top_to_show S tie_BA 2)
          /\ ties_in_input_order tie_AB (@top_to_show S tie_AB 2)).
Proof.
  assert (Hno : forall rk, Permutation [("B"%string, 5); ("A"%string, 5)] rk ->
            ties_in_input_order tie_BA (rev rk) ->
            ties_in_input_order tie_AB (rev rk) -> False).
  { intros rk Hp HBA HAB.
    apply Permutation_length_2_inv in Hp. destruct Hp as [-> | ->];
      simpl in HBA, HAB.
    - inversion HBA as [|? ? Hf _]; subst.
      inversion Hf as [|? ? Hab _]; subst.
      specialize (Hab eq_refl). vm_compute in Hab. lia.
    - inversion HAB as [|? ? Hf _]; subst.
      inversion Hf as [|? ? Hab _]; subst.
      specialize (Hab eq_refl). vm_compute in Hab. lia. }
  split.
  - split; [reflexivity|].
    change (top_to_show (S:=insertion_sorter) tie_BA 2)
      with (rev [("B"%string, 5); ("A"%string, 5)]).
    intros H. inversion H as [|? ? Hf _]; subst.
    inversion Hf as [|? ? Hab _]; subst.
    specialize (Hab eq_refl). vm_compute in Hab. lia.
  - intros (S & HBA & HAB).
    apply (Hno (@argsort S _ snd [("B"%string, 5); ("A"%string, 5)])).
    + apply argsort_perm.
    + pose proof (Permutation_length
                    (@argsort_perm S _ snd [("B"%string, 5); ("A"%string, 5)]))
        as Hlen.
      unfold top_to_show, head, top_entities, sort_values in HBA.
      change (groupby_sum Entity doses_daily tie_BA)
        with [("A"%string, 5); ("B"%string, 5)] in HBA.
      cbn [Z.leb Z.compare Z.to_nat Pos.to_nat Pos.iter_op Nat.add rev app]
        in HBA.
      rewrite firstn_all2 in HBA; [exact HBA|].
      rewrite length_rev, <- Hlen. simpl. lia.
    + pose proof (Permutation_length
                    (@argsort_perm S _ snd [("B"%string, 5); ("A"%string, 5)]))
        as Hlen.
      unfold top_to_show, head, top_entities, sort_values in HAB.
      change (groupby_sum Entity doses_daily tie_AB)
        with [("A"%string, 5); ("B"%string, 5)] in HAB.
      cbn [Z.leb Z.compare Z.to_nat Pos.to_nat Pos.iter_op Nat.add rev app]
        in HAB.
      rewrite firstn_all2 in HAB; [exact HAB|].
      rewrite length_rev, <- Hlen. simpl. lia.
Qed.

(** ** load_data *)

Lemma dropna_Retained (csv : DataFrame string) :
  forall parsed, length parsed = length csv ->
    Retained csv parsed (dropna_Day (assign_Day csv parsed)).
Proof.
  unfold assign_Day.
  induction csv as [|r csv IH]; intros [|p parsed] H; simpl in *;
    try discriminate; [constructor|].
  destruct p; constructor; apply IH; lia.
Qed.

Lemma Retained_dropna (csv : DataFrame string) parsed out :
  Retained csv parsed out -> out = dropna_Day (assign_Day csv parsed).
Proof.
  unfold assign_Day. induction 1; simpl; congruence.
Qed.

Lemma Retained_length (csv : DataFrame string) parsed out :
  Retained csv parsed out -> length out = parsed_count parsed.
Proof.
  unfold parsed_count. induction 1; simpl; congruence.
Qed.

Lemma Retained_source (csv : DataFrame string) parsed out :
  Retained csv parsed out ->
  forall rec, In rec out ->
    exists r, In r csv /\ In (Some (Day rec)) parsed
              /\ Entity rec = Entity r /\ doses_daily rec = doses_daily r.
Proof.
  induction 1 as [|r t csv parsed out H IH|r csv parsed out H IH];
    intros rec Hin.
  - destruct Hin.
  - destruct Hin as [<-|Hin].
    + exists r. simpl. auto.
    + destruct (IH rec Hin) as (r' & ? & ? & ? & ?).
      exists r'. simpl. auto.
  - destruct (IH rec Hin) as (r' & ? & ? & ? & ?).
    exists r'. simpl. auto.
Qed.

(** C7. [load_data] returns exactly the rows whose date parsed, in file
    order, each with its parsed day and with its entity and dose cells as
    read (a missing or negative count included); the other rows are gone
    without an error. *)
Theorem C7_load_data (to_datetime : list string -> list (option Timestamp))
    (csv : DataFrame string) :
  length (to_datetime (map Day csv)) = length csv ->
  let parsed := to_datetime (map Day csv) in
  let df := load_data to_datetime csv in
  Retained csv parsed df
  /\ (forall out, Retained csv parsed out -> out = df)
  /\ length df = parsed_count parsed
  /\ (forall rec, In rec df ->
        exists r, In r csv /\ In (Some (Day rec)) parsed
                  /\ Entity rec = Entity r
                  /\ doses_daily rec = doses_daily r).
Proof.
  intros Hlen parsed df.
  assert (H : Retained csv parsed df)
    by (apply dropna_Retained; assumption).
  split; [exact H|]. split; [|split].
  - intros out Hout. apply Retained_dropna in Hout. exact Hout.
  - apply (Retained_length _ _ _ H).
  - apply (Retained_source _ _ _ H).
Qed.

(** ** Headline figures *)

Lemma Zpos_of_nat_S (n : nat) : Zpos (Pos.of_nat (S n)) = Z.of_nat (S n).
Proof.
  rewrite <- Pos.of_nat_succ, Zpos_P_of_succ_nat, Nat2Z.inj_succ. reflexivity.
Qed.

Lemma quot_truncates (s n : Z) : 0 < n -> truncates s n (Z.quot s n).
Proof.
  intros Hn. unfold truncates.
  destruct (Z.le_gt_cases 0 s) as [Hs|Hs].
  - rewrite Z.quot_div_nonneg by lia.
    pose proof (Z.div_pos s n Hs Hn) as Hq.
    pose proof (Z.mul_div_le s n Hn) as H1.
    pose proof (Z.mul_succ_div_gt s n Hn) as H2.
    rewrite !Z.abs_eq by lia. nia.
  - assert (E : Z.quot s n = - ((- s) / n)).
    { rewrite <- (Z.quot_div_nonneg (- s) n) by lia.
      rewrite Z.quot_opp_l by lia. lia. }
    rewrite E.
    pose proof (Z.div_pos (- s) n ltac:(lia) Hn) as Hq.
    pose proof (Z.mul_div_le (- s) n Hn) as H1.
    pose proof (Z.mul_succ_div_gt (- s) n Hn) as H2.
    rewrite Z.abs_opp, (Z.abs_eq (- s / n)), (Z.abs_neq s) by lia. nia.
Qed.

Lemma groupby_sum_nonempty (df : DataFrame Timestamp) :
  df <> [] -> groupby_sum Day doses_daily df <> [].
Proof.
  destruct df as [|r df]; [congruence|]. intros _ Hnil.
  assert (Hin : In (Day r) (map fst (groupby_sum Day doses_daily (r :: df))))
    by (apply groupby_sum_keys; left; reflexivity).
  rewrite Hnil in Hin. destruct Hin.
Qed.

Lemma int_mean (col : list Z) :
  col <> [] ->
  int (mean col) = Ok (Z.quot (zsum col) (Z.of_nat (length col))).
Proof.
  destruct col as [|x col]; [congruence|]. intros _.
  unfold mean, int, Qtrunc. cbn [Qnum Qden length].
  rewrite Zpos_of_nat_S. reflexivity.
Qed.

Section Headline.
Context `{S : Sorter}.

(** C8. The headline average is the mean of [global_daily]'s totals, one
    per day, cut to an integer toward zero. *)
Theorem C8_avg_daily (df : DataFrame Timestamp) :
  df <> [] ->
  let totals := map gd_doses (global_daily df) in
  let days := Z.of_nat (length totals) in
  kpi_avg_daily df = int (mean totals)
  /\ kpi_avg_daily df = Ok (Z.quot (zsum totals) days)
  /\ truncates (zsum totals) days (Z.quot (zsum totals) days).
Proof.
  intros Hne totals days. subst days totals.
  rewrite global_daily_doses.
  assert (Hg : map snd (groupby_sum Day doses_daily df) <> []).
  { intros E. apply map_eq_nil in E.
    apply (groupby_sum_nonempty df Hne). exact E. }
  split; [reflexivity|]. split.
  - unfold kpi_avg_daily. apply int_mean. assumption.
  - apply quot_truncates.
    destruct (map snd (groupby_sum Day doses_daily df)); [congruence|].
    cbn [length]. lia.
Qed.

(** C9. The worked example: two days with totals 15 and 20 and rolling
    averages 15.0 and 17.5, and A with 30 doses as the top entity. *)
Theorem C9_sample :
  global_daily sample
  = [ mkDaily (ymd 2021 1 1) 15 (Some (15 # 1));
      mkDaily (ymd 2021 1 2) 20 (Some (35 # 2)) ]
  /\ top_to_show sample 1 = [("A"%string, 30)].
Proof.
  split.
  - rewrite global_daily_frame. reflexivity.
  - unfold top_to_show, top_entities, sort_values.
    change (groupby_sum Entity doses_daily sample)
      with [("A"%string, 30); ("B"%string, 5)].
    cbn [rev app].
    rewrite argsort_sorted_id.
    + reflexivity.
    + cbn [map snd]. repeat constructor; simpl; intuition discriminate.
    + repeat constructor; simpl; lia.
Qed.
End Headline.

Lemma load_data_all_NaT (to_datetime : list string -> list (option Timestamp))
    (csv : DataFrame string) :
  Forall (fun p => p = None) (to_datetime (map Day csv)) ->
  load_data to_datetime csv = [].
Proof.
  unfold load_data. generalize (to_datetime (map Day csv)) as parsed.
  induction csv as [|r csv IH]; intros [|p parsed] H; try reflexivity.
  inversion H; subst. simpl. apply IH. assumption.
Qed.

(** C10. On an empty record set the headline figures are not produced:
    the latest date is [NaT] and the conversion of the mean of no day to an
    integer raises; that is the case when no date of the file parses.  With
    one record or more all three figures are produced. *)
Theorem C10_empty_fails :
  kpis [] = ValueError
  /\ kpi_latest_date [] = None
  /\ kpi_avg_daily [] = ValueError
  /\ (forall to_datetime csv,
        Forall (fun p => p = None) (to_datetime (map Day csv)) ->
        kpis (load_data to_datetime csv) = ValueError)
  /\ (forall df, df <> [] ->
        exists k, kpis df = Ok k /\ latest_date k <> None).
Proof.
  split; [reflexivity|]. split; [reflexivity|]. split; [reflexivity|]. split.
  - intros to_datetime csv H. rewrite load_data_all_NaT by assumption.
    reflexivity.
  - intros df Hne. unfold kpis.
    assert (Ht : kpi_total_doses df = Ok (nansum (map doses_daily df))).
    { unfold kpi_total_doses, int, Qtrunc. simpl.
      rewrite Z.quot_1_r. reflexivity. }
    assert (Ha : exists a, kpi_avg_daily df = Ok a).
    { unfold kpi_avg_daily. eexists. apply int_mean.
      intros E. apply map_eq_nil in E.
      apply (groupby_sum_nonempty df Hne). exact E. }
    destruct Ha as [a Ha]. rewrite Ht, Ha. simpl.
    eexists. split; [reflexivity|]. simpl.
    destruct df; [congruence|]. discriminate.
Qed.

(** ** The properties at work on the sample inputs *)

(** On the eighth of eight days the window is days 2 to 8. *)
Lemma C2_rolling_window_witness :
  nth_error (global_daily (S:=insertion_sorter) eight_days) 7
  = Some (mkDaily (ymd 2021 1 8) 8 (Some (35 # 7)))
  /\ Some (35 # 7) = mean [2; 3; 4; 5; 6; 7; 8]
  /\ Some (35 # 7) <> None.
Proof.
  split; [reflexivity|].
  pose proof (@C2_rolling_window insertion_sorter eight_days 7 _ eq_refl) as H.
  cbv zeta in H. destruct H as (_ & _ & H7 & Hnull).
  split; [exact (proj1 (H7 (le_S _ _ (le_n 6))))|exact Hnull].
Defined.

Lemma C4_top_n_witness :
  0 <= 1
  /\ length (top_to_show (S:=insertion_sorter) sample 1)
     = Nat.min 1 (distinct_entities sample).
Proof.
  assert (H0 : 0 <= 1) by lia.
  split; [exact H0|].
  pose proof (@C4_top_n insertion_sorter sample 1 H0) as H.
  cbv zeta in H. exact (proj1 H).
Defined.

Lemma C5_ties_by_name_witness :
  Permutation tie_BA tie_AB
  /\ stable insertion_sorter
  /\ top_to_show (S:=insertion_sorter) tie_BA 2
     = top_to_show (S:=insertion_sorter) tie_AB 2
  /\ ties_in_name_order (top_to_show (S:=insertion_sorter) tie_BA 2).
Proof.
  pose proof (@C5_ties_by_name insertion_sorter tie_BA tie_AB 2
                (perm_swap _ _ [])) as H.
  split; [apply perm_swap|].
  split; [exact insertion_sorter_stable|].
  split; [exact (proj1 H)|exact (proj2 H insertion_sorter_stable)].
Defined.

Lemma C6_entity_daily_witness :
  (forall r, In r sample -> Entity r <> "C"%string)
  /\ ent_df (S:=insertion_sorter) sample "C" = []
  /\ ent_df (S:=insertion_sorter) sample "A"
     = global_daily (S:=insertion_sorter) (records_of "A" sample).
Proof.
  assert (Hnone : forall r, In r sample -> Entity r <> "C"%string).
  { intros r [<-|[<-|[<-|[]]]]; discriminate. }
  split; [exact Hnone|].
  split.
  - exact (proj2 (@C6_entity_daily insertion_sorter sample "C") Hnone).
  - exact (proj1 (@C6_entity_daily insertion_sorter sample "A")).
Defined.

Lemma C7_load_data_witness :
  length (to_datetime_iso (map Day sample_csv)) = length sample_csv
  /\ Retained sample_csv (to_datetime_iso (map Day sample_csv))
              (load_data to_datetime_iso sample_csv)
  /\ length (load_data to_datetime_iso sample_csv) = 2%nat.
Proof.
  pose proof (C7_load_data to_datetime_iso sample_csv eq_refl) as H.
  cbv zeta in H. destruct H as (H1 & _ & H3 & _).
  split; [reflexivity|]. split; [exact H1|exact H3].
Defined.

Lemma C8_avg_daily_witness :
  sample <> [] /\ kpi_avg_daily sample = Ok 17.
Proof.
  assert (Hne : sample <> []) by discriminate.
  split; [exact Hne|].
  pose proof (@C8_avg_daily insertion_sorter sample Hne) as H.
  cbv zeta in H. exact (proj1 (proj2 H)).
Defined.

Lemma C10_empty_fails_witness :
  Forall (fun p => p = None) (to_datetime_iso (map Day bad_csv))
  /\ kpis (load_data to_datetime_iso bad_csv) = ValueError
  /\ sample <> []
  /\ exists k, kpis sample = Ok k /\ latest_date k <> None.
Proof.
  destruct C10_empty_fails as (_ & _ & _ & Hnat & Hok).
  assert (Hall : Forall (fun p : option Timestamp => p = None)
                   (to_datetime_iso (map Day bad_csv)))
    by (repeat constructor).
  assert (Hne : sample <> []) by discriminate.
  split; [exact Hall|].
  split; [exact (Hnat to_datetime_iso _ Hall)|].
  split; [exact Hne|exact (Hok sample Hne)].
Defined.

(** The contract of the sort alone does not order the ties: a sort that
    is not stable ranks the two tied entities the other way round. *)
Example ties_under_reversing_sort :
  top_to_show (S:=reversing_sorter) tie_AB 2
  = [("B"%string, 5); ("A"%string, 5)]
  /\ top_to_show (S:=insertion_sorter) tie_AB 2
     = [("A"%string, 5); ("B"%string, 5)]
  /\ ~ stable reversing_sorter.
Proof.
  split; [reflexivity|]. split; [reflexivity|].
  intros H.
  specialize (H (string * Z)%type snd
                [("A"%string, 5); ("B"%string, 5)] 5).
  discriminate H.
Qed.

(** The file order is kept, not the date order; a missing and a negative
    count pass through. *)
Example load_data_sample :
  load_data to_datetime_iso sample_csv
  = [ mkRow "B"%string (ymd 2021 1 2) None;
      mkRow "A"%string (ymd 2021 1 1) (Some (-3)) ].
Proof. reflexivity. Qed.

(** 17.5 is cut to 17, where rounding would give 18; the mean over the
    three raw rows would be 35/3. *)
Example avg_daily_sample :
  kpi_avg_daily sample = Ok 17
  /\ mean (map gd_doses (global_daily (S:=insertion_sorter) sample))
     = Some (35 # 2)
  /\ mean (map (fun r => nan0 (doses_daily r)) sample) = Some (35 # 3).
Proof. repeat split. Qed.

(** A negative mean is cut toward zero as well: -2.5 gives -2. *)
Example avg_daily_negative : kpi_avg_daily negative_days = Ok (-2).
Proof. reflexivity. Qed.

Example kpis_sample :
  kpis sample = Ok (mkKPIs (Some (days_from_civil 2021 1 2)) 35 17).
Proof. reflexivity. Qed.

(** [head] with a negative count drops rows from the end. *)
Example head_negative : head (-1) [1; 2; 3] = [1; 2].
Proof. reflexivity. Qed.

Example parse_iso_date_samples :
  parse_iso_date "2021-01-01" = Some (18628 * ns_per_day)
  /\ parse_iso_date "2021-02-29" = None
  /\ parse_iso_date "2020-02-29" = Some (18321 * ns_per_day)
  /\ parse_iso_date "1 Jan 2021" = None.
Proof. repeat split. Qed.

(** * Further properties of the script *)

(** ** The entity selector *)

Lemma existsb_eqb_In (x : string) (seen : list string) :
  existsb (String.eqb x) seen = true <-> In x seen.
Proof.
  rewrite existsb_exists. split.
  - intros (y & Hy & E). apply String.eqb_eq in E. subst. assumption.
  - intros H. exists x. split; [assumption|apply String.eqb_refl].
Qed.

Lemma unique_from_In (seen col : list string) (x : string) :
  In x (unique_from seen col) <-> In x col /\ ~ In x seen.
Proof.
  revert seen. induction col as [|y col IH]; intros seen; simpl; [tauto|].
  destruct (existsb (String.eqb y) seen) eqn:E.
  - apply existsb_eqb_In in E. rewrite IH. split.
    + tauto.
    + intros [[->|H] Hn]; tauto.
  - assert (Hy : ~ In y seen).
    { intros H. apply existsb_eqb_In in H. congruence. }
    simpl. rewrite IH. simpl. split.
    + intros [->|[H Hn]]; [tauto|]. split; [tauto|]. tauto.
    + intros [[->|H] Hn]; [tauto|].
      destruct (string_dec y x) as [->|Hne]; [tauto|]. right. tauto.
Qed.

Lemma unique_from_NoDup (seen col : list string) :
  NoDup (unique_from seen col).
Proof.
  revert seen. induction col as [|y col IH]; intros seen; simpl;
    [constructor|].
  destruct (existsb (String.eqb y) seen); [apply IH|].
  constructor; [|apply IH].
  rewrite unique_from_In. simpl. tauto.
Qed.

Section SortedKeys.
Context {K : Type} `{KO : KeyOrder K}.

Lemma insert_sorted_In (x y : K) (l : list K) :
  In y (insert_sorted x l) <-> y = x \/ In y l.
Proof.
  induction l as [|z l IH]; simpl; [intuition|].
  destruct (kcmp x z); simpl; try rewrite IH; intuition.
Qed.

Lemma sorted_In (y : K) (l : list K) : In y (sorted l) <-> In y l.
Proof.
  induction l as [|x l IH]; simpl; [tauto|].
  rewrite insert_sorted_In, IH. intuition.
Qed.

Lemma insert_sorted_strict (x : K) (l : list K) :
  StronglySorted klt l -> ~ In x l -> StronglySorted klt (insert_sorted x l).
Proof.
  induction l as [|z l IH]; simpl; intros Hs Hn.
  - repeat constructor.
  - inversion Hs as [|? ? Hs' Hf]; subst.
    destruct (kcmp x z) eqn:E.
    + apply kcmp_eq in E. subst. tauto.
    + constructor; [assumption|]. constructor; [exact E|].
      eapply Forall_impl; [|exact Hf].
      intros a Ha. eapply kcmp_trans; eauto.
    + constructor; [apply IH; tauto|].
      rewrite Forall_forall in *. intros a Ha.
      apply insert_sorted_In in Ha. destruct Ha as [->|Ha]; [|auto].
      apply kcmp_gt. assumption.
Qed.

Lemma sorted_strict (l : list K) : NoDup l -> StronglySorted klt (sorted l).
Proof.
  induction 1 as [|x l Hn Hnd IH]; simpl; [constructor|].
  apply insert_sorted_strict; [assumption|].
  rewrite sorted_In. assumption.
Qed.

(** A list in strictly ascending order is fixed by its elements. *)
Lemma strict_sorted_ext (l1 l2 : list K) :
  StronglySorted klt l1 -> StronglySorted klt l2 ->
  (forall k, In k l1 <-> In k l2) -> l1 = l2.
Proof.
  revert l2. induction l1 as [|a l1 IH]; intros [|b l2] H1 H2 Hin.
  - reflexivity.
  - exfalso. apply (proj2 (Hin b)). left. reflexivity.
  - exfalso. apply (proj1 (Hin a)). left. reflexivity.
  - inversion H1 as [|? ? Hs1 Hf1]; subst.
    inversion H2 as [|? ? Hs2 Hf2]; subst.
    rewrite Forall_forall in Hf1, Hf2.
    assert (Hab : a = b).
    { destruct (proj1 (Hin a) (or_introl eq_refl)) as [Ha|Ha]; [auto|].
      destruct (proj2 (Hin b) (or_introl eq_refl)) as [Hb|Hb]; [auto|].
      exfalso. apply (kcmp_irrefl a).
      eapply kcmp_trans; [apply Hf1; exact Hb|apply Hf2; exact Ha]. }
    subst b. f_equal. apply IH; auto.
    intros k. split; intros Hk.
    + destruct (proj1 (Hin k) (or_intror Hk)) as [<-|H]; [|assumption].
      exfalso. apply (kcmp_irrefl a). apply Hf1. assumption.
    + destruct (proj2 (Hin k) (or_intror Hk)) as [<-|H]; [|assumption].
      exfalso. apply (kcmp_irrefl a). apply Hf2. assumption.
Qed.
End SortedKeys.

Lemma options_In (df : DataFrame Timestamp) (e : string) :
  In e (options df) <-> In e (map Entity df).
Proof.
  unfold options, entities, unique.
  rewrite sorted_In, unique_from_In. simpl. tauto.
Qed.

Lemma options_strict (df : DataFrame Timestamp) :
  StronglySorted klt (options df).
Proof.
  apply sorted_strict, unique_from_NoDup.
Qed.

(** X1. The select box offers each entity of the records once, in
    ascending order of name: the same list, in the same order, as the
    entity column of the table of entity totals before it is ranked. *)
Theorem options_are_entity_groups (df : DataFrame Timestamp) :
  options df = map fst (groupby_sum Entity doses_daily df)
  /\ StronglySorted klt (options df)
  /\ (forall e, In e (options df) <-> In e (map Entity df))
  /\ length (options df) = distinct_entities df.
Proof.
  assert (E : options df = map fst (groupby_sum Entity doses_daily df)).
  { apply strict_sorted_ext.
    - apply options_strict.
    - apply groupby_sum_sorted.
    - intros e. rewrite options_In, groupby_sum_keys. reflexivity. }
  split; [exact E|]. split; [apply options_strict|].
  split; [apply options_In|].
  rewrite E, length_map. apply groupby_sum_length.
Qed.

Lemma records_of_nil_iff (df : DataFrame Timestamp) (e : string) :
  records_of e df = [] <-> ~ In e (map Entity df).
Proof.
  unfold records_of. induction df as [|r df IH]; simpl; [tauto|].
  destruct (string_dec (Entity r) e) as [E|E].
  - split; [discriminate|]. intros H. exfalso. apply H. auto.
  - rewrite IH. tauto.
Qed.

Section SelectorFacts.
Context `{S : Sorter}.

Lemma ent_df_records_of (df : DataFrame Timestamp) (e : string) :
  ent_df df e = global_daily (records_of e df).
Proof.
  unfold ent_df, global_daily, records_of.
  replace (filter (fun r => String.eqb (Entity r) e) df)
    with (filter (fun r => if string_dec (Entity r) e then true else false)
                 df); [reflexivity|].
  apply filter_ext. intros r.
  destruct (String.eqb_spec (Entity r) e), (string_dec (Entity r) e);
    congruence.
Qed.

Lemma global_daily_nil_iff (df : DataFrame Timestamp) :
  global_daily df = [] <-> df = [].
Proof.
  split.
  - intros H. destruct df as [|r df]; [reflexivity|]. exfalso.
    apply (groupby_sum_nonempty (r :: df)); [discriminate|].
    pose proof (global_daily_Day (r :: df)) as E. rewrite H in E.
    simpl in E. symmetry in E. apply map_eq_nil in E. exact E.
  - intros ->. apply Permutation_nil.
    pose proof (global_daily_frame (@nil (Row Timestamp))) as E.
    rewrite E. reflexivity.
Qed.

(** X2. An entity has a non-empty series exactly when the select box
    offers it: whatever the user picks, the entity chart has data. *)
Theorem offered_entity_has_series (df : DataFrame Timestamp)
    (chosen : string) :
  In chosen (options df) <-> ent_df df chosen <> [].
Proof.
  rewrite options_In, ent_df_records_of, global_daily_nil_iff,
    records_of_nil_iff.
  destruct (in_dec string_dec chosen (map Entity df)); tauto.
Qed.

(** X3. With at least one record the select box starts on the entity
    whose name is smallest, and the chart of that entity has data. *)
Theorem default_entity_is_smallest (df : DataFrame Timestamp) :
  df <> [] ->
  exists e, chosen_default df = Some e
            /\ In e (map Entity df)
            /\ (forall e', In e' (map Entity df) -> e' = e \/ klt e e')
            /\ ent_df df e <> [].
Proof.
  intros Hne. unfold chosen_default.
  pose proof (options_strict df) as Hs.
  pose proof (options_In df) as Hin.
  destruct (options df) as [|e rest] eqn:E.
  - exfalso. destruct df as [|r df]; [congruence|].
    apply (proj2 (Hin (Entity r))). left. reflexivity.
  - exists e. split; [reflexivity|].
    assert (He : In e (map Entity df)) by (apply Hin; left; reflexivity).
    split; [exact He|]. split.
    + intros e' He'. apply Hin in He'. destruct He' as [->|He']; [auto|].
      right. inversion Hs as [|? ? _ Hf]; subst.
      rewrite Forall_forall in Hf. apply Hf. assumption.
    + rewrite ent_df_records_of, global_daily_nil_iff, records_of_nil_iff.
      tauto.
Qed.
End SelectorFacts.

(** ** How the views agree *)

Lemma records_of_In (df : DataFrame Timestamp) (e : string)
    (r : Row Timestamp) :
  In r (records_of e df) -> In r df /\ Entity r = e.
Proof.
  unfold records_of. rewrite filter_In.
  destruct (string_dec (Entity r) e); intuition discriminate.
Qed.

Lemma fold_max_Day (l : DataFrame Timestamp) :
  forall a,
    let m := fold_left (fun m r => Z.max m (Day r)) l a in
    a <= m /\ (forall r, In r l -> Day r <= m)
    /\ (m = a \/ exists r, In r l /\ Day r = m).
Proof.
  unfold Timestamp in *.
  induction l as [|x l IH]; intros a; simpl.
  - split; [lia|]. split; [tauto|]. left. reflexivity.
  - specialize (IH (Z.max a (Day x))). simpl in IH.
    destruct IH as (H1 & H2 & H3).
    remember (fold_left (fun m r => Z.max m (Day r)) l (Z.max a (Day x)))
      as m eqn:Em.
    clear Em.
    split; [lia|]. split.
    + intros r [<-|Hr]; [lia|auto].
    + destruct H3 as [H3|(r & Hr & H3)].
      * destruct (Z.max_spec a (Day x)) as [[_ E]|[_ E]]; rewrite E in H3.
        -- right. exists x. auto.
        -- left. assumption.
      * right. exists r. auto.
Qed.

Lemma Day_max_spec (df : DataFrame Timestamp) :
  df <> [] ->
  exists t, Day_max df = Some t /\ In t (map Day df)
            /\ (forall r, In r df -> Day r <= t).
Proof.
  destruct df as [|x df]; [congruence|]. intros _.
  pose proof (fold_max_Day df (Day x)) as H. simpl in H.
  destruct H as (H1 & H2 & H3).
  eexists. split; [reflexivity|]. split.
  - simpl. destruct H3 as [->|(r & Hr & <-)]; [auto|].
    right. apply in_map. assumption.
  - intros r [<-|Hr]; auto.
Qed.

Lemma last_strict_sorted (l : list Z) (t d : Z) :
  StronglySorted Z.lt l -> In t l -> (forall x, In x l -> x <= t) ->
  last l d = t.
Proof.
  induction l as [|x l IH]; intros Hs Hin Hub; [destruct Hin|].
  inversion Hs as [|? ? Hs' Hf]; subst.
  destruct l as [|y l]; [destruct Hin as [->|[]]; reflexivity|].
  change (last (x :: y :: l) d) with (last (y :: l) d).
  apply IH; [assumption| |intros z Hz; apply Hub; right; assumption].
  destruct Hin as [<-|Hin]; [|assumption].
  exfalso. rewrite Forall_forall in Hf.
  pose proof (Hf y (or_introl eq_refl)).
  pose proof (Hub y (or_intror (or_introl eq_refl))). lia.
Qed.

Section Agreement.
Context `{S : Sorter}.

(** X4. The series of one entity adds up to that entity's total, which is
    the figure the ranking shows for it; and the days of the series are
    days of the global series. *)
Theorem entity_series_matches_ranking (df : DataFrame Timestamp)
    (e : string) :
  zsum (map gd_doses (ent_df df e)) = entity_total e df
  /\ (In e (map Entity df) -> In (e, entity_total e df) (top_entities df))
  /\ (forall d, In d (map gd_Day (ent_df df e)) ->
                In d (map gd_Day (global_daily df))).
Proof.
  split; [|split].
  - rewrite ent_df_records_of, global_daily_doses, groupby_sum_total.
    reflexivity.
  - intros He. apply (groupby_sum_keys Entity doses_daily) in He.
    apply in_map_iff in He. destruct He as ([e0 t] & E & Hin).
    simpl in E. subst e0.
    rewrite <- (entity_group_total _ _ _ Hin).
    apply (Permutation_in _ (top_entities_perm df)). assumption.
  - intros d. rewrite ent_df_records_of, !global_daily_Day.
    rewrite !groupby_sum_keys. rewrite !in_map_iff.
    intros (r & <- & Hr). exists r. split; [reflexivity|].
    apply records_of_In in Hr. tauto.
Qed.

(** X5. The totals of all the ranked entities add up to the headline
    total, and so do the daily totals of the global series. *)
Theorem ranking_adds_up (df : DataFrame Timestamp) :
  kpi_total_doses df = Ok (zsum (map snd (top_entities df)))
  /\ zsum (map snd (top_entities df))
     = zsum (map gd_doses (global_daily df)).
Proof.
  assert (E : zsum (map snd (top_entities df))
              = nansum (map doses_daily df)).
  { rewrite <- (zsum_perm _ _ (Permutation_map snd (top_entities_perm df))).
    apply groupby_sum_total. }
  rewrite E, global_daily_doses, groupby_sum_total. split; [|reflexivity].
  unfold kpi_total_doses, int, Qtrunc. simpl.
  rewrite Z.quot_1_r. reflexivity.
Qed.

(** X6. With at least one record the headline date is the calendar day
    of the latest timestamp among the records, which is the day of the
    last row of the global series. *)
Theorem latest_date_is_last_day (df : DataFrame Timestamp) :
  df <> [] ->
  exists t, In t (map Day df)
            /\ (forall r, In r df -> Day r <= t)
            /\ last (map gd_Day (global_daily df)) 0 = t
            /\ kpi_latest_date df = Some (t / ns_per_day).
Proof.
  intros Hne. destruct (Day_max_spec df Hne) as (t & Hmax & Hin & Hub).
  exists t. split; [exact Hin|]. split; [exact Hub|]. split.
  - rewrite global_daily_Day. apply last_strict_sorted.
    + apply klt_sorted_lt, groupby_sum_sorted.
    + apply groupby_sum_keys. assumption.
    + intros x Hx. apply (groupby_sum_keys Day doses_daily) in Hx.
      apply in_map_iff in Hx. destruct Hx as (r & <- & Hr). auto.
  - unfold kpi_latest_date. rewrite Hmax. reflexivity.
Qed.

(** X8. With the slider in its range (5 to 50) and at least one record,
    the bar chart is not empty, has at most 50 bars, and its first bar is
    an entity whose total no entity exceeds. *)
Theorem first_bar_is_largest (df : DataFrame Timestamp) (top_n : Z) :
  5 <= top_n <= 50 -> df <> [] ->
  exists e t rest,
    top_to_show df top_n = (e, t) :: rest
    /\ t = entity_total e df
    /\ (forall e', In e' (map Entity df) -> entity_total e' df <= t)
    /\ (length (top_to_show df top_n) <= 50)%nat.
Proof.
  intros Hn Hne. unfold top_to_show. rewrite head_nonneg by lia.
  pose proof (top_entities_perm df) as Hp.
  pose proof (sort_values_desc_sorted snd
                (groupby_sum Entity doses_daily df)) as Hs.
  fold (top_entities df) in Hs.
  destruct (top_entities df) as [|[e t] full] eqn:E.
  - exfalso. apply Permutation_sym, Permutation_nil in Hp.
    destruct df as [|r df]; [congruence|].
    assert (Hin : In (Entity r)
                     (map fst (groupby_sum Entity doses_daily (r :: df))))
      by (apply groupby_sum_keys; left; reflexivity).
    rewrite Hp in Hin. destruct Hin.
  - destruct (Z.to_nat top_n) as [|m] eqn:Em; [lia|].
    exists e, t, (firstn m full). split; [reflexivity|].
    assert (Ht : t = entity_total e df).
    { apply entity_group_total.
      apply (Permutation_in _ (Permutation_sym Hp)). left. reflexivity. }
    split; [exact Ht|]. split.
    + intros e' He'. apply (groupby_sum_keys Entity doses_daily) in He'.
      apply in_map_iff in He'. destruct He' as ([e0 t'] & E0 & Hin).
      simpl in E0. subst e0.
      rewrite <- (entity_group_total _ _ _ Hin).
      apply (Permutation_in _ Hp) in Hin.
      destruct Hin as [Heq|Hin]; [inversion Heq; lia|].
      inversion Hs as [|? ? _ Hf]; subst.
      rewrite Forall_forall in Hf. apply (Hf (e', t')). assumption.
    + etransitivity; [apply firstn_le_length|lia].
Qed.
End Agreement.

(** X7. When the headline figures are produced, the average is the
    headline total divided by the number of distinct days, cut toward
    zero, so it never exceeds the total in size. *)
Theorem avg_is_total_over_days (df : DataFrame Timestamp) (k : KPIs) :
  kpis df = Ok k ->
  let days := Z.of_nat (length (nodup Z.eq_dec (map Day df))) in
  total_doses k = nansum (map doses_daily df)
  /\ 1 <= days
  /\ avg_daily k = Z.quot (total_doses k) days
  /\ Z.abs (avg_daily k) <= Z.abs (total_doses k).
Proof.
  intros Hk days.
  assert (Hne : df <> []) by (intros ->; discriminate Hk).
  assert (Hg : map snd (groupby_sum Day doses_daily df) <> []).
  { intros E. apply map_eq_nil in E.
    apply (groupby_sum_nonempty df Hne). exact E. }
  assert (Ht : kpi_total_doses df = Ok (nansum (map doses_daily df))).
  { unfold kpi_total_doses, int, Qtrunc. simpl.
    rewrite Z.quot_1_r. reflexivity. }
  assert (Hlen : Z.of_nat (length (map snd (groupby_sum Day doses_daily df)))
                 = days).
  { rewrite length_map, (groupby_sum_length _ _ _ Z.eq_dec). reflexivity. }
  assert (Ha : kpi_avg_daily df
               = Ok (Z.quot (nansum (map doses_daily df)) days)).
  { unfold kpi_avg_daily. rewrite (int_mean _ Hg), Hlen.
    rewrite groupby_sum_total. reflexivity. }
  assert (Hd : 1 <= days).
  { rewrite <- Hlen.
    destruct (map snd (groupby_sum Day doses_daily df));
      [congruence|cbn [length]; lia]. }
  unfold kpis in Hk. rewrite Ht, Ha in Hk. simpl in Hk.
  inversion Hk; subst k; simpl.
  split; [reflexivity|]. split; [exact Hd|]. split; [reflexivity|].
  destruct (quot_truncates (nansum (map doses_daily df)) days
              ltac:(lia)) as [[H1 _] _].
  nia.
Qed.

(** ** Bounds on the series *)

Lemma zsum_bounds (l : list Z) (lo hi : Z) :
  (forall x, In x l -> lo <= x <= hi) ->
  Z.of_nat (length l) * lo <= zsum l <= Z.of_nat (length l) * hi.
Proof.
  induction l as [|x l IH]; intros H; [simpl; lia|].
  assert (Hx : lo <= x <= hi) by (apply H; left; reflexivity).
  assert (Hl : forall y, In y l -> lo <= y <= hi)
    by (intros y Hy; apply H; right; assumption).
  specialize (IH Hl). cbn [length zsum fold_right]. fold (zsum l).
  rewrite Nat2Z.inj_succ. lia.
Qed.

Lemma mean_bounds (l : list Z) (lo hi : Z) (q : Q) :
  (forall x, In x l -> lo <= x <= hi) -> mean l = Some q ->
  (inject_Z lo <= q <= inject_Z hi)%Q.
Proof.
  intros H Hm. destruct l as [|x l]; [discriminate|].
  pose proof (zsum_bounds (x :: l) lo hi H) as Hb.
  assert (Hq : q = zsum (x :: l) # Pos.of_nat (S (length l)))
    by (change (Some (zsum (x :: l) # Pos.of_nat (S (length l))) = Some q)
          in Hm; congruence).
  subst q. cbn [length] in Hb.
  unfold Qle, inject_Z. cbn [Qnum Qden].
  rewrite Zpos_of_nat_S. lia.
Qed.

Lemma slice_In (lo hi : nat) (l : list Z) (x : Z) :
  In x (slice lo hi l) -> In x l.
Proof.
  unfold slice. intros H.
  rewrite <- (firstn_skipn lo l). apply in_or_app. right.
  rewrite <- (firstn_skipn (hi - lo) (skipn lo l)).
  apply in_or_app. left. assumption.
Qed.

Lemma window_mean_bounds (col : list Z) (i : nat) (lo hi : Z) :
  (i < length col)%nat -> (forall x, In x col -> lo <= x <= hi) ->
  exists q, window_mean col i = Some q
            /\ (inject_Z lo <= q <= inject_Z hi)%Q.
Proof.
  intros Hi H. unfold window_mean.
  pose proof (slice_length (Nat.max 0 (i - 6)) (i + 1) col ltac:(lia))
    as Hlen.
  destruct (mean (slice (Nat.max 0 (i - 6)) (i + 1) col)) as [q|] eqn:E.
  - exists q. split; [reflexivity|].
    apply (mean_bounds _ lo hi q) in E; [assumption|].
    intros x Hx. apply H. eapply slice_In. exact Hx.
  - destruct (slice (Nat.max 0 (i - 6)) (i + 1) col);
      [cbn [length] in Hlen; lia|discriminate].
Qed.

Lemma gd_doses_upper_bound (l : list DailyRow) :
  exists hi, forall r, In r l -> gd_doses r <= hi.
Proof.
  induction l as [|r l [hi Hhi]].
  - exists 0. intros r [].
  - exists (Z.max hi (gd_doses r)). intros r' [<-|Hr']; [lia|].
    specialize (Hhi r' Hr'). lia.
Qed.

Section Bounds.
Context `{S : Sorter}.

Lemma global_daily_avg_In (df : DataFrame Timestamp) (row : DailyRow) :
  In row (global_daily df) ->
  exists i, (i < length (global_daily df))%nat
            /\ gd_7d_avg row
               = window_mean (map gd_doses (global_daily df)) i.
Proof.
  intros Hin. apply In_nth_error in Hin. destruct Hin as [i Hi].
  exists i. split; [apply nth_error_Some; congruence|].
  rewrite global_daily_doses.
  rewrite global_daily_frame in Hi. cbv zeta in Hi.
  apply assign_7d_avg_nth in Hi. exact Hi.
Qed.

Lemma global_daily_avg_bounds (df : DataFrame Timestamp) (lo hi : Z) :
  (forall row, In row (global_daily df) -> lo <= gd_doses row <= hi) ->
  forall row, In row (global_daily df) ->
    exists q, gd_7d_avg row = Some q
              /\ (inject_Z lo <= q <= inject_Z hi)%Q.
Proof.
  intros H row Hrow.
  destruct (global_daily_avg_In df row Hrow) as (i & Hi & ->).
  apply window_mean_bounds.
  - rewrite length_map. assumption.
  - intros x Hx. apply in_map_iff in Hx. destruct Hx as (r & <- & Hr).
    auto.
Qed.

(** X9. Every rolling average lies between the smallest and the largest
    daily total of the series. *)
Theorem avg_within_totals (df : DataFrame Timestamp) (lo hi : Z) :
  (forall row, In row (global_daily df) -> lo <= gd_doses row <= hi) ->
  forall row, In row (global_daily df) ->
    exists q, gd_7d_avg row = Some q
              /\ (inject_Z lo <= q <= inject_Z hi)%Q.
Proof.
  apply global_daily_avg_bounds.
Qed.

Lemma nansum_nonneg (cells : list (option Z)) :
  (forall c, In c cells -> 0 <= nan0 c) -> 0 <= nansum cells.
Proof.
  induction cells as [|c cells IH]; intros H; simpl; [lia|].
  pose proof (H c (or_introl eq_refl)).
  assert (0 <= nansum cells) by (apply IH; intros; apply H; right; auto).
  lia.
Qed.

Lemma group_cells_nonneg {K : Type} `{KeyOrder K}
    (key : Row Timestamp -> K) (df : DataFrame Timestamp) (k : K) :
  (forall r, In r df -> 0 <= nan0 (doses_daily r)) ->
  0 <= nansum (group_cells key doses_daily k df).
Proof.
  intros Hpos. apply nansum_nonneg. intros c Hc.
  unfold group_cells in Hc. apply in_map_iff in Hc.
  destruct Hc as (r & <- & Hr). apply filter_In in Hr. apply Hpos. tauto.
Qed.

(** X10. When no record has a negative count (missing counts allowed), no
    daily total, no rolling average and no entity total is negative. *)
Theorem nonnegative_counts_stay_nonnegative (df : DataFrame Timestamp) :
  (forall r, In r df -> 0 <= nan0 (doses_daily r)) ->
  (forall row, In row (global_daily df) ->
     0 <= gd_doses row
     /\ exists q, gd_7d_avg row = Some q /\ (0 <= q)%Q)
  /\ (forall e t, In (e, t) (top_entities df) -> 0 <= t).
Proof.
  intros Hpos.
  assert (Htot : forall row, In row (global_daily df) -> 0 <= gd_doses row).
  { intros row Hrow. apply global_daily_rows in Hrow.
    apply groupby_sum_group in Hrow. rewrite Hrow.
    apply group_cells_nonneg. assumption. }
  split.
  - intros row Hrow. split; [auto|].
    assert (Hhi : exists hi, forall r, In r (global_daily df) ->
                               gd_doses r <= hi)
      by apply gd_doses_upper_bound.
    destruct Hhi as [hi Hhi].
    assert (Hb : forall r, In r (global_daily df) ->
                   0 <= gd_doses r <= hi)
      by (intros r Hr; split; [apply Htot|apply Hhi]; assumption).
    destruct (global_daily_avg_bounds df 0 hi Hb row Hrow)
      as (q & Hq & Hlo & _).
    exists q. split; assumption.
  - intros e t Hin.
    apply (Permutation_in _ (Permutation_sym (top_entities_perm df))) in Hin.
    apply groupby_sum_group in Hin. rewrite Hin.
    apply group_cells_nonneg. assumption.
Qed.
End Bounds.

(** ** The preview and the dashboard *)

Lemma head_head {A : Type} (a b : Z) (l : list A) :
  0 <= a <= b -> head a (head b l) = head a l.
Proof.
  intros H. rewrite !head_nonneg by lia.
  rewrite firstn_firstn. f_equal. lia.
Qed.

(** X11. The bar chart of the generator's preview shows the rows the
    dashboard shows with its slider at 10, its initial value: cutting the
    ranking to 15 and then to 10 rows is cutting it to 10. *)
Theorem preview_is_default_view `{S : Sorter}
    (to_datetime : list string -> list (option Timestamp))
    (csv : DataFrame string) :
  fig_top (preview_df to_datetime csv)
  = top_to_show (load_data to_datetime csv) 10
  /\ (length (fig_top (preview_df to_datetime csv)) <= 10)%nat.
Proof.
  assert (E : fig_top (preview_df to_datetime csv)
              = top_to_show (load_data to_datetime csv) 10).
  { unfold fig_top, top_countries, top_to_show, top_entities, preview_df,
      load_data.
    apply head_head. lia. }
  split; [exact E|].
  rewrite E. unfold top_to_show. rewrite head_nonneg by lia.
  apply firstn_le_length.
Qed.

(** ** More on load_data *)

Lemma dropna_length (df : DataFrame (option Timestamp)) :
  (length (dropna_Day df) <= length df)%nat.
Proof.
  induction df as [|r df IH]; simpl; [lia|].
  destruct (Day r); simpl; lia.
Qed.

Lemma dropna_all_parsed (csv : DataFrame string) :
  forall parsed, length parsed = length csv ->
    (forall p, In p parsed -> p <> None) ->
    let df := dropna_Day (assign_Day csv parsed) in
    map Entity df = map Entity csv
    /\ map doses_daily df = map doses_daily csv
    /\ map (fun r => Some (Day r)) df = parsed.
Proof.
  unfold assign_Day.
  induction csv as [|r csv IH]; intros [|p parsed] Hlen Hall; simpl in *;
    try discriminate; [auto|].
  destruct p as [t|]; [|exfalso; apply (Hall None); auto].
  destruct (IH parsed) as (H1 & H2 & H3); [lia|auto|].
  simpl. rewrite H1, H2, H3. auto.
Qed.

(** X12. [load_data] never returns more rows than the file has; and when
    every date of the file parses it keeps every row: the entity and dose
    columns come back as they were read and the day column is the parsed
    one. *)
Theorem load_data_keeps_parsed_file
    (to_datetime : list string -> list (option Timestamp))
    (csv : DataFrame string) :
  length (to_datetime (map Day csv)) = length csv ->
  let df := load_data to_datetime csv in
  (length df <= length csv)%nat
  /\ ((forall p, In p (to_datetime (map Day csv)) -> p <> None) ->
      length df = length csv
      /\ map Entity df = map Entity csv
      /\ map doses_daily df = map doses_daily csv
      /\ map (fun r => Some (Day r)) df = to_datetime (map Day csv)).
Proof.
  intros Hlen df. subst df. unfold load_data. split.
  - etransitivity; [apply dropna_length|].
    unfold assign_Day. rewrite length_map, length_combine. lia.
  - intros Hall.
    destruct (dropna_all_parsed csv _ Hlen Hall) as (H1 & H2 & H3).
    split; [|auto].
    rewrite <- (length_map Entity), H1, length_map. reflexivity.
Qed.

(** ** The order of the rows of the file *)

Lemma Day_max_perm (df df' : DataFrame Timestamp) :
  Permutation df df' -> Day_max df = Day_max df'.
Proof.
  intros Hp. destruct df as [|r df].
  - apply Permutation_nil in Hp. subst. reflexivity.
  - assert (Hne : r :: df <> []) by discriminate.
    assert (Hne' : df' <> []).
    { intros ->. apply Permutation_sym, Permutation_nil in Hp.
      discriminate. }
    destruct (Day_max_spec _ Hne) as (t & -> & Hin & Hub).
    destruct (Day_max_spec _ Hne') as (t' & -> & Hin' & Hub').
    f_equal. apply in_map_iff in Hin, Hin'.
    destruct Hin as (x & <- & Hx). destruct Hin' as (x' & <- & Hx').
    apply Z.le_antisymm.
    + apply Hub'. eapply Permutation_in; eauto.
    + apply Hub. eapply Permutation_in; [apply Permutation_sym|]; eauto.
Qed.

Lemma records_of_perm (e : string) (df df' : DataFrame Timestamp) :
  Permutation df df' -> Permutation (records_of e df) (records_of e df').
Proof.
  apply filter_perm.
Qed.

(** X13. The order of the rows of the file does not show: two record sets
    that differ only in row order give the same headline figures, the same
    global series, the same series for each entity and the same options in
    the select box. *)
Theorem row_order_does_not_show `{S : Sorter} (df df' : DataFrame Timestamp)
    (e : string) :
  Permutation df df' ->
  kpis df = kpis df'
  /\ global_daily df = global_daily df'
  /\ ent_df df e = ent_df df' e
  /\ options df = options df'.
Proof.
  intros Hp. split; [|split; [|split]].
  - unfold kpis, kpi_latest_date, kpi_total_doses, kpi_avg_daily.
    rewrite (Day_max_perm _ _ Hp).
    rewrite (nansum_perm _ _ (Permutation_map doses_daily Hp)).
    rewrite (groupby_sum_perm Day doses_daily _ _ Hp). reflexivity.
  - unfold global_daily.
    rewrite (groupby_sum_perm Day doses_daily _ _ Hp). reflexivity.
  - rewrite !ent_df_records_of. unfold global_daily.
    rewrite (groupby_sum_perm Day doses_daily _ _
               (records_of_perm e _ _ Hp)).
    reflexivity.
  - apply strict_sorted_ext; try apply options_strict.
    intros k. rewrite !options_In. split; intros H.
    + eapply Permutation_in; [apply Permutation_map; exact Hp|exact H].
    + eapply Permutation_in;
        [apply Permutation_map, Permutation_sym; exact Hp|exact H].
Qed.

(** ** The texts of the metrics and of the titles *)

Lemma digits_no_comma (d : Decimal.uint) :
  no_comma (list_ascii_of_string (NilZero.string_of_uint d)).
Proof.
  assert (H : forall d, no_comma
                (list_ascii_of_string (NilEmpty.string_of_uint d))).
  { induction d0; simpl; constructor; (discriminate || assumption). }
  destruct d; try apply H. repeat constructor. discriminate.
Qed.

Lemma group3_filter (digits : list ascii) :
  no_comma digits ->
  forall k,
    filter (fun c => negb (Ascii.eqb c ","%char)) (group3 k digits) = digits.
Proof.
  induction 1 as [|c digits Hc Hd IH]; intros k; [reflexivity|].
  assert (Hk : negb (Ascii.eqb c ","%char) = true).
  { destruct (Ascii.eqb_spec c ","%char); [contradiction|reflexivity]. }
  destruct k; simpl; rewrite Hk, IH; reflexivity.
Qed.

Lemma remove_with_commas (digits : string) :
  no_comma (list_ascii_of_string digits) ->
  remove_commas (with_commas digits) = digits.
Proof.
  intros H. unfold remove_commas, with_commas.
  rewrite list_ascii_of_string_of_list_ascii, filter_rev.
  rewrite group3_filter.
  - rewrite rev_involutive. apply string_of_list_ascii_of_string.
  - unfold no_comma in *. apply Forall_rev. assumption.
Qed.

Lemma Z_of_string_str (z : Z) : Z_of_string (str z) = Some z.
Proof.
  unfold Z_of_string, str. rewrite NilZero.isi.
  - simpl. rewrite DecimalZ.of_to. reflexivity.
  - destruct z; simpl; try discriminate.
    intros E. inversion E as [E']. apply (Unsigned.to_uint_nonnil p E').
  - destruct z; simpl; try discriminate.
    intros E. inversion E as [E']. apply (Unsigned.to_uint_nonnil p E').
Qed.

Lemma group3_positions (digits : list ascii) :
  no_comma digits ->
  forall (k p : nat) (c : ascii),
    (k <= 3)%nat -> nth_error (group3 k digits) p = Some c ->
    (c = ","%char <-> (p mod 4 = k)%nat).
Proof.
  induction 1 as [|c0 digits Hc Hd IH]; intros k p c Hk Hp.
  - destruct p; discriminate.
  - destruct k as [|k]; cbn [group3] in Hp.
    + destruct p as [|[|p]]; cbn [nth_error] in Hp.
      * inversion Hp; subst. split; reflexivity.
      * inversion Hp; subst. split; [contradiction|discriminate].
      * rewrite (IH 2%nat p c ltac:(lia) Hp).
        change (S (S p)) with (2 + p)%nat.
        pose proof (Nat.mod_upper_bound p 4 ltac:(lia)).
        pose proof (Nat.div_mod_eq p 4).
        pose proof (Nat.mod_upper_bound (2 + p) 4 ltac:(lia)).
        pose proof (Nat.div_mod_eq (2 + p) 4). lia.
    + destruct p as [|p]; cbn [nth_error] in Hp.
      * inversion Hp; subst. split; [contradiction|].
        rewrite Nat.Div0.mod_0_l. discriminate.
      * rewrite (IH k p c ltac:(lia) Hp).
        change (S p) with (1 + p)%nat.
        pose proof (Nat.mod_upper_bound p 4 ltac:(lia)).
        pose proof (Nat.div_mod_eq p 4).
        pose proof (Nat.mod_upper_bound (1 + p) 4 ltac:(lia)).
        pose proof (Nat.div_mod_eq (1 + p) 4). lia.
Qed.

Lemma append_empty_r (s : string) : String.append s ""%string = s.
Proof.
  induction s as [|c s IH]; simpl; [reflexivity|]. rewrite IH. reflexivity.
Qed.

Lemma format_comma_sign (z : Z) :
  format_comma z
  = String.append (if z <? 0 then "-"%string else ""%string)
                  (with_commas (str (Z.abs z))).
Proof.
  destruct z; reflexivity.
Qed.

(** X14. The two integer metrics are shown as [format(n, ',')]: an
    optional minus sign, then the decimal digits of the value with a comma
    as every fourth character counted from the end and nowhere else.
    Taking the commas out gives [str(n)], which reads back as the value. *)
Theorem metric_text_round_trip (n : Z) :
  col2_metric n = Some (format_comma n)
  /\ col3_metric n = Some (format_comma n)
  /\ format_comma n
     = String.append (if n <? 0 then "-"%string else ""%string)
                     (with_commas (str (Z.abs n)))
  /\ (forall p c, char_from_end (with_commas (str (Z.abs n))) p = Some c ->
        (c = ","%char <-> (p mod 4 = 3)%nat))
  /\ remove_commas (format_comma n) = str n
  /\ Z_of_string (remove_commas (format_comma n)) = Some n.
Proof.
  assert (Hrm : remove_commas (format_comma n) = str n).
  { unfold format_comma, str. destruct (Z.to_int n) as [d|d]; simpl.
    - apply remove_with_commas, digits_no_comma.
    - change (remove_commas (String "-" (with_commas
                                           (NilZero.string_of_uint d))))
        with (String "-" (remove_commas
                            (with_commas (NilZero.string_of_uint d)))).
      f_equal. apply remove_with_commas, digits_no_comma. }
  split; [unfold col2_metric, fstring; simpl; f_equal;
          apply append_empty_r|].
  split; [unfold col3_metric, fstring; simpl; f_equal;
          apply append_empty_r|].
  split; [apply format_comma_sign|]. split; [|split].
  - intros p c Hp. unfold char_from_end, with_commas in Hp.
    rewrite list_ascii_of_string_of_list_ascii, rev_involutive in Hp.
    assert (Hd : exists d, str (Z.abs n) = NilZero.string_of_uint d)
      by (destruct n; eexists; reflexivity).
    destruct Hd as [d Hd]. rewrite Hd in Hp.
    apply (group3_positions _ (Forall_rev (digits_no_comma d)) 3%nat p c
             ltac:(lia) Hp).
  - exact Hrm.
  - rewrite Hrm. apply Z_of_string_str.
Qed.

(** X15. The titles of the bar chart and of the entity chart are fixed
    texts: the braces around the names are doubled, so the f-strings
    print the names in braces and never the slider value or the chosen
    entity. *)
Theorem titles_do_not_show_values (top_n : Z) (chosen : string) :
  fig2_title top_n = Some "Top {top_n} Entities by Total Doses"%string
  /\ fig3_title chosen = Some "Daily Doses - {chosen}"%string.
Proof.
  split; reflexivity.
Qed.

(** With single braces the same templates would show the values. *)
Example single_braces_show_values :
  fstring [("top_n"%string, VInt 10)]
          "Top {top_n} Entities by Total Doses"
  = Some "Top 10 Entities by Total Doses"%string
  /\ fstring [("chosen"%string, VStr "Kenya")] "Daily Doses - {chosen}"
     = Some "Daily Doses - Kenya"%string.
Proof.
  split; reflexivity.
Qed.

(** ** The further properties at work on the sample inputs *)

Lemma default_entity_is_smallest_witness :
  sample <> []
  /\ exists e, chosen_default sample = Some e
               /\ ent_df (S:=insertion_sorter) sample e <> [].
Proof.
  assert (Hne : sample <> []) by discriminate.
  split; [exact Hne|].
  destruct (@default_entity_is_smallest insertion_sorter sample Hne)
    as (e & H1 & _ & _ & H4).
  exists e. split; assumption.
Defined.

Lemma latest_date_is_last_day_witness :
  sample <> []
  /\ exists t, last (map gd_Day (global_daily (S:=insertion_sorter) sample)) 0
               = t
               /\ kpi_latest_date sample = Some (t / ns_per_day).
Proof.
  assert (Hne : sample <> []) by discriminate.
  split; [exact Hne|].
  destruct (@latest_date_is_last_day insertion_sorter sample Hne)
    as (t & _ & _ & H3 & H4).
  exists t. split; assumption.
Defined.

Lemma avg_is_total_over_days_witness :
  kpis sample = Ok (mkKPIs (Some (days_from_civil 2021 1 2)) 35 17)
  /\ 17 = Z.quot 35 2.
Proof.
  assert (Hk : kpis sample
               = Ok (mkKPIs (Some (days_from_civil 2021 1 2)) 35 17))
    by reflexivity.
  split; [exact Hk|].
  pose proof (avg_is_total_over_days sample _ Hk) as H.
  cbv zeta in H. exact (proj1 (proj2 (proj2 H))).
Defined.

Lemma first_bar_is_largest_witness :
  5 <= 5 <= 50 /\ sample <> []
  /\ exists e t rest,
       top_to_show (S:=insertion_sorter) sample 5 = (e, t) :: rest
       /\ t = entity_total e sample.
Proof.
  assert (Hn : 5 <= 5 <= 50) by lia.
  assert (Hne : sample <> []) by discriminate.
  split; [exact Hn|]. split; [exact Hne|].
  destruct (@first_bar_is_largest insertion_sorter sample 5 Hn Hne)
    as (e & t & rest & H1 & H2 & _).
  exists e, t, rest. split; assumption.
Defined.

Lemma sample_totals_bounds (row : DailyRow) :
  In row (global_daily (S:=insertion_sorter) sample) ->
  15 <= gd_doses row <= 20.
Proof.
  assert (E : global_daily (S:=insertion_sorter) sample
              = [ mkDaily (ymd 2021 1 1) 15 (Some (15 # 1));
                  mkDaily (ymd 2021 1 2) 20 (Some (35 # 2)) ])
    by reflexivity.
  rewrite E. intros [<-|[<-|[]]]; simpl; lia.
Defined.

Lemma avg_within_totals_witness :
  (forall row, In row (global_daily (S:=insertion_sorter) sample) ->
               15 <= gd_doses row <= 20)
  /\ In (mkDaily (ymd 2021 1 2) 20 (Some (35 # 2)))
        (global_daily (S:=insertion_sorter) sample)
  /\ exists q, Some (35 # 2) = Some q
               /\ (inject_Z 15 <= q <= inject_Z 20)%Q.
Proof.
  assert (Hin : In (mkDaily (ymd 2021 1 2) 20 (Some (35 # 2)))
                   (global_daily (S:=insertion_sorter) sample))
    by (right; left; reflexivity).
  split; [exact sample_totals_bounds|]. split; [exact Hin|].
  exact (@avg_within_totals insertion_sorter sample 15 20
           sample_totals_bounds _ Hin).
Defined.

Lemma sample_counts_nonnegative (r : Row Timestamp) :
  In r sample -> 0 <= nan0 (doses_daily r).
Proof.
  intros [<-|[<-|[<-|[]]]]; simpl; lia.
Defined.

Lemma nonnegative_counts_stay_nonnegative_witness :
  (forall r, In r sample -> 0 <= nan0 (doses_daily r))
  /\ (forall e t, In (e, t) (top_entities (S:=insertion_sorter) sample) ->
                  0 <= t).
Proof.
  split; [exact sample_counts_nonnegative|].
  exact (proj2 (@nonnegative_counts_stay_nonnegative insertion_sorter sample
                  sample_counts_nonnegative)).
Defined.

Lemma good_csv_all_parsed (p : option Timestamp) :
  In p (to_datetime_iso (map Day good_csv)) -> p <> None.
Proof.
  intros [<-|[<-|[]]]; discriminate.
Defined.

Lemma load_data_keeps_parsed_file_witness :
  length (to_datetime_iso (map Day good_csv)) = length good_csv
  /\ (forall p, In p (to_datetime_iso (map Day good_csv)) -> p <> None)
  /\ length (load_data to_datetime_iso good_csv) = length good_csv
  /\ map Entity (load_data to_datetime_iso good_csv) = map Entity good_csv.
Proof.
  pose proof (load_data_keeps_parsed_file to_datetime_iso good_csv eq_refl)
    as H.
  cbv zeta in H. destruct H as [_ H].
  destruct (H good_csv_all_parsed) as (H1 & H2 & _).
  split; [reflexivity|]. split; [exact good_csv_all_parsed|].
  split; assumption.
Defined.

Lemma row_order_does_not_show_witness :
  Permutation tie_BA tie_AB
  /\ kpis tie_BA = kpis tie_AB
  /\ global_daily (S:=insertion_sorter) tie_BA
     = global_daily (S:=insertion_sorter) tie_AB
  /\ options tie_BA = options tie_AB.
Proof.
  assert (Hp : Permutation tie_BA tie_AB) by apply perm_swap.
  destruct (@row_order_does_not_show insertion_sorter tie_BA tie_AB
              "A"%string Hp) as (H1 & H2 & _ & H4).
  split; [exact Hp|]. split; [exact H1|]. split; assumption.
Defined.

(** The entity series, the ranking and the options on the sample. *)
Example views_of_sample :
  options sample = ["A"%string; "B"%string]
  /\ chosen_default sample = Some "A"%string
  /\ map gd_doses (ent_df (S:=insertion_sorter) sample "A") = [10; 20]
  /\ top_entities (S:=insertion_sorter) sample
     = [("A"%string, 30); ("B"%string, 5)].
Proof.
  repeat split.
Qed.

Example metric_texts :
  col2_metric 1234567 = Some "1,234,567"%string
  /\ col3_metric (-1234) = Some "-1,234"%string
  /\ col2_metric 0 = Some "0"%string
  /\ col3_metric 999 = Some "999"%string.
Proof.
  repeat split.
Qed.
